(** * Tunnel monitor: the status-polling and recovery state machine

    A shallow embedding of [src/tunnel_monitor.py] (class [TunnelMonitor])
    and the properties of its probe, its recovery action and its
    monitoring loop.

    The Python methods mutate [self], write log records, sleep, spawn
    external processes and may raise.  They are embedded in one small
    monad [M S A]: explicit state of type [S], a chronological trace of
    the observable effects, and a result that is either a value or a
    raised exception.  What the outside world answers (the outcome of
    [subprocess.run], the clock, a fault of the tray icon backend) is
    passed to each operation as an explicit oracle argument. *)

From Stdlib Require Import ZArith List String Ascii Bool Lia.
Import ListNotations.
Local Open Scope string_scope.
Local Open Scope list_scope.
Local Open Scope Z_scope.
#[local] Set Warnings "-register-all".

(** ** Configuration constants (module level in the source) *)

Definition CHECK_INTERVAL : Z := 30.
Definition RETRY_DELAY : Z := 10.
Definition MAX_RETRIES : Z := 3.

(** Literals of the two time-outs and of the settle delay. *)
Definition STATUS_TIMEOUT : Z := 10.
Definition RESTART_TIMEOUT : Z := 30.
Definition SETTLE_DELAY : Z := 5.

(** ** Data *)

(** A value as [json.loads] returns it.  An object is kept as the item
    list of the resulting [dict] (keys are distinct there); a number is
    kept as its literal. *)
Inductive json : Type :=
| JNull
| JBool (b : bool)
| JNum (literal : string)
| JStr (s : string)
| JArr (items : list json)
| JObj (members : list (string * json)).

(** The exceptions the code can meet, all subclasses of [Exception]. *)
Inductive exn : Type :=
| TimeoutExpired
| JSONDecodeError (msg : string)
| AttributeError (receiver : json)
| OtherException (msg : string).

(** The captured standard output of a process, represented by what
    [json.loads] makes of it: a decoding error or a value. *)
Inductive output : Type :=
| NotJSON (msg : string)
| JSONText (v : json).

Record completed_process : Type := CompletedProcess {
  returncode : Z;
  stdout : output;
  stderr : string
}.

(** What one call of [subprocess.run] does: it returns, or it raises
    ([TimeoutExpired] when the time-out passes, anything else when the
    process cannot be launched). *)
Inductive run_outcome : Type :=
| Returns (p : completed_process)
| Throws (e : exn).

(** [datetime.now()]. *)
Record datetime : Type := DateTime {
  day : Z;
  hour : nat;
  minute : nat;
  second : nat;
  microsecond : nat
}.

Inductive color : Type := green | red.

Inductive command : Type :=
| TunnelStatus            (* code tunnel status *)
| TunnelServiceRestart    (* code tunnel service restart *)
| Notepad.                (* notepad LOG_FILE *)

Inductive level : Type := INFO | WARNING | ERROR.

(** The log records of the source, one constructor per format string. *)
Inductive message : Type :=
| TunnelIsConnected (name : json)
| TunnelIsNotConnected (name : json)
| FailedToCheckStatus (err : string)
| TimeoutCheckingStatus
| FailedToParseStatus (e : exn)
| ErrorCheckingStatus (e : exn)
| AttemptingRestart
| RestartCommandExecuted
| FailedToRestart (err : string)
| ErrorRestarting (e : exn)
| DisconnectedAttempt (attempt : Z) (limit : Z)
| SuccessfullyRestarted
| FailedAfterAttempts (limit : Z)
| ErrorInLoop (e : exn)
| FailedToOpenLog (e : exn)
| MonitorStopping
| MonitorStarted.

(** The observable effects, in the order the code performs them. *)
Inductive effect : Type :=
| Run (c : command) (timeout : option Z)
| Sleep (secs : Z)
| Log (l : level) (m : message)
| UpdateIcon (c : color)
| Notify (text : string)
| IconStop.

Definition trace : Type := list effect.

(** The attributes of a [TunnelMonitor] instance.  [icon] is the tray
    icon once [start] has created it, with the colour of its glyph. *)
Record monitor : Type := Monitor {
  is_running : bool;
  tunnel_connected : bool;
  tunnel_name : json;
  last_check_time : option datetime;
  icon : option color
}.

(** [TunnelMonitor.__init__] *)
Definition init : monitor :=
  {| is_running := false;
     tunnel_connected := false;
     tunnel_name := JStr "Unknown";
     last_check_time := None;
     icon := None |}.

Definition set_is_running (b : bool) (m : monitor) : monitor :=
  {| is_running := b;
     tunnel_connected := tunnel_connected m;
     tunnel_name := tunnel_name m;
     last_check_time := last_check_time m;
     icon := icon m |}.

Definition set_tunnel_connected (b : bool) (m : monitor) : monitor :=
  {| is_running := is_running m;
     tunnel_connected := b;
     tunnel_name := tunnel_name m;
     last_check_time := last_check_time m;
     icon := icon m |}.

Definition set_tunnel_name (n : json) (m : monitor) : monitor :=
  {| is_running := is_running m;
     tunnel_connected := tunnel_connected m;
     tunnel_name := n;
     last_check_time := last_check_time m;
     icon := icon m |}.

Definition set_last_check_time (t : option datetime) (m : monitor) : monitor :=
  {| is_running := is_running m;
     tunnel_connected := tunnel_connected m;
     tunnel_name := tunnel_name m;
     last_check_time := t;
     icon := icon m |}.

Definition set_icon (i : option color) (m : monitor) : monitor :=
  {| is_running := is_running m;
     tunnel_connected := tunnel_connected m;
     tunnel_name := tunnel_name m;
     last_check_time := last_check_time m;
     icon := i |}.

(** ** The monad of the embedding *)

Inductive result (A : Type) : Type :=
| Ret (a : A)
| Raise (e : exn).
Arguments Ret {A} a.
Arguments Raise {A} e.

Definition M (S A : Type) : Type := S -> result A * S * trace.

Definition ret {S A} (a : A) : M S A := fun s => (Ret a, s, []).

Definition raise {S A} (e : exn) : M S A := fun s => (Raise e, s, []).

Definition bind {S A B} (m : M S A) (k : A -> M S B) : M S B :=
  fun s =>
    match m s with
    | (Ret a, s1, t1) =>
        match k a s1 with
        | (r, s2, t2) => (r, s2, t1 ++ t2)
        end
    | (Raise e, s1, t1) => (Raise e, s1, t1)
    end.

(** [try: m except Exception as e: h e]; what [m] did before it raised
    stays done. *)
Definition try_except {S A} (m : M S A) (h : exn -> M S A) : M S A :=
  fun s =>
    match m s with
    | (Ret a, s1, t1) => (Ret a, s1, t1)
    | (Raise e, s1, t1) =>
        match h e s1 with
        | (r, s2, t2) => (r, s2, t1 ++ t2)
        end
    end.

Definition get {S} : M S S := fun s => (Ret s, s, []).

Definition modify {S} (f : S -> S) : M S unit := fun s => (Ret tt, f s, []).

Definition emit {S} (e : effect) : M S unit := fun s => (Ret tt, s, [e]).

Declare Scope py_scope.
Delimit Scope py_scope with py.
Notation "x <- m ;; k" := (bind m (fun x => k))
  (at level 61, m at next level, right associativity) : py_scope.
Notation "m ;; k" := (bind m (fun _ => k))
  (at level 61, right associativity) : py_scope.
Local Open Scope py_scope.

(** Projections of a run. *)
Definition value_of {S A} (r : result A * S * trace) : result A := fst (fst r).
Definition state_of {S A} (r : result A * S * trace) : S := snd (fst r).
Definition trace_of {S A} (r : result A * S * trace) : trace := snd r.

(** ** Primitive operations *)

Definition logging {S} (l : level) (m : message) : M S unit := emit (Log l m).

Definition time_sleep {S} (secs : Z) : M S unit := emit (Sleep secs).

Definition subprocess_run {S} (c : command) (timeout : option Z)
    (o : run_outcome) : M S completed_process :=
  emit (Run c timeout) ;;
  match o with
  | Returns p => ret p
  | Throws e => raise e
  end.

Definition json_loads {S} (out : output) : M S json :=
  match out with
  | JSONText v => ret v
  | NotJSON msg => raise (JSONDecodeError msg)
  end.

Fixpoint lookup (key : string) (members : list (string * json)) : option json :=
  match members with
  | [] => None
  | (k, v) :: rest => if String.eqb k key then Some v else lookup key rest
  end.

(** [v.get(key, default)]: only a [dict] has the method; on any other
    value the attribute access raises. *)
Definition dict_get {S} (v : json) (key : string) (default : json) : M S json :=
  match v with
  | JObj members =>
      match lookup key members with
      | Some x => ret x
      | None => ret default
      end
  | _ => raise (AttributeError v)
  end.

(** [v == 'literal'] for a value that came out of [json.loads]. *)
Definition equals_str (v : json) (literal : string) : bool :=
  match v with
  | JStr s => String.eqb s literal
  | _ => false
  end.

(** ** What the outside world answers *)

(** One call of [check_tunnel_status]: the outcome of the status command
    and the reading of the clock. *)
Record probe_oracle : Type := ProbeOracle {
  status_run : run_outcome;
  now : datetime
}.

(** One call of [restart_tunnel]: the outcome of the restart command and
    the answers to the confirming probe, should it be made. *)
Record restart_oracle : Type := RestartOracle {
  restart_run : run_outcome;
  confirm : probe_oracle
}.

(** One iteration of the monitoring loop.  [icon_fault] is the exception
    drawing or installing the glyph raises, if any: [update_icon] is the
    only call of the loop body that is not wrapped in a handler of its own. *)
Record tick_oracle : Type := TickOracle {
  probe : probe_oracle;
  icon_fault : option exn;
  recovery : restart_oracle
}.

(** ** The methods of [TunnelMonitor] *)

(** [check_tunnel_status], lines 58-102. *)
Definition check_tunnel_status (o : probe_oracle) : M monitor bool :=
  try_except
    (result <- subprocess_run TunnelStatus (Some STATUS_TIMEOUT) (status_run o) ;;
     if returncode result =? 0 then
       status_data <- json_loads (stdout result) ;;
       tunnel_info <- dict_get status_data "tunnel" (JObj []) ;;
       state <- dict_get tunnel_info "tunnel" JNull ;;
       let is_connected := equals_str state "Connected" in
       name <- dict_get tunnel_info "name" (JStr "Unknown") ;;
       modify (set_tunnel_connected is_connected) ;;
       modify (set_tunnel_name name) ;;
       modify (set_last_check_time (Some (now o))) ;;
       (if is_connected
        then logging INFO (TunnelIsConnected name)
        else logging WARNING (TunnelIsNotConnected name)) ;;
       ret is_connected
     else
       logging ERROR (FailedToCheckStatus (stderr result)) ;;
       modify (set_tunnel_connected false) ;;
       ret false)
    (fun e =>
       match e with
       | TimeoutExpired =>
           logging ERROR TimeoutCheckingStatus ;;
           modify (set_tunnel_connected false) ;;
           ret false
       | JSONDecodeError _ =>
           logging ERROR (FailedToParseStatus e) ;;
           modify (set_tunnel_connected false) ;;
           ret false
       | _ =>
           logging ERROR (ErrorCheckingStatus e) ;;
           modify (set_tunnel_connected false) ;;
           ret false
       end).

(** [restart_tunnel], lines 104-128. *)
Definition restart_tunnel (o : restart_oracle) : M monitor bool :=
  logging INFO AttemptingRestart ;;
  try_except
    (result <- subprocess_run TunnelServiceRestart (Some RESTART_TIMEOUT)
                 (restart_run o) ;;
     if returncode result =? 0 then
       logging INFO RestartCommandExecuted ;;
       time_sleep SETTLE_DELAY ;;
       check_tunnel_status (confirm o)
     else
       logging ERROR (FailedToRestart (stderr result)) ;;
       ret false)
    (fun e =>
       logging ERROR (ErrorRestarting e) ;;
       ret false).

(** [update_icon], lines 162-165.  The call is recorded; with no icon yet
    nothing else happens, otherwise the glyph is drawn and installed,
    which is where [fault] strikes. *)
Definition update_icon (c : color) (fault : option exn) : M monitor unit :=
  emit (UpdateIcon c) ;;
  self <- get ;;
  match icon self with
  | None => ret tt
  | Some _ =>
      match fault with
      | Some e => raise e
      | None => modify (set_icon (Some c))
      end
  end.

(** The frame of [monitoring_loop]: [self] and the local [retry_count]. *)
Record frame : Type := Frame {
  self : monitor;
  retry_count : Z
}.

Definition set_retry_count (n : Z) (f : frame) : frame :=
  {| self := self f; retry_count := n |}.

(** A method call on [self] from inside the loop. *)
Definition call {A} (m : M monitor A) : M frame A :=
  fun f =>
    match m (self f) with
    | (r, s, t) => (r, {| self := s; retry_count := retry_count f |}, t)
    end.

(** The body of the [while] of [monitoring_loop], lines 135-160. *)
Definition iteration (o : tick_oracle) : M frame unit :=
  try_except
    (is_connected <- call (check_tunnel_status (probe o)) ;;
     (if is_connected : bool then
        modify (set_retry_count 0) ;;
        call (update_icon green (icon_fault o))
      else
        call (update_icon red (icon_fault o)) ;;
        f <- get ;;
        if retry_count f <? MAX_RETRIES then
          logging WARNING (DisconnectedAttempt (retry_count f + 1) MAX_RETRIES) ;;
          restarted <- call (restart_tunnel (recovery o)) ;;
          if restarted : bool then
            logging INFO SuccessfullyRestarted ;;
            modify (set_retry_count 0)
          else
            modify (fun f' => set_retry_count (retry_count f' + 1) f') ;;
            time_sleep RETRY_DELAY
        else
          logging ERROR (FailedAfterAttempts MAX_RETRIES) ;;
          time_sleep CHECK_INTERVAL) ;;
     time_sleep CHECK_INTERVAL)
    (fun e =>
       logging ERROR (ErrorInLoop e) ;;
       time_sleep CHECK_INTERVAL).

(** [monitoring_loop], lines 130-160, run on its own for as many
    iterations as there are oracles: [retry_count = 0], then the [while]. *)
Fixpoint while_running (os : list tick_oracle) : M frame unit :=
  match os with
  | [] => ret tt
  | o :: rest =>
      f <- get ;;
      if is_running (self f) then iteration o ;; while_running rest
      else ret tt
  end.


(** ** Status text *)

Definition newline : string := String "010"%char "".
Definition check_mark : string :=
  String "226"%char (String "156"%char (String "147"%char "")).
Definition ballot_x : string :=
  String "226"%char (String "156"%char (String "151"%char "")).

Definition digit (n : nat) : string :=
  String (ascii_of_nat (48 + Nat.modulo n 10)) "".

Definition two_digits (n : nat) : string :=
  (digit (Nat.div n 10) ++ digit n)%string.

(** [t.strftime('%H:%M:%S')] *)
Definition strftime_HMS (t : datetime) : string :=
  (two_digits (hour t) ++ ":" ++ two_digits (minute t) ++ ":" ++
   two_digits (second t))%string.

Section StatusText.

(** [str(v)] for a value that is not a string, as the f-string of
    [get_status_text] formats it. *)
Variable py_str : json -> string.

Definition format (v : json) : string :=
  match v with
  | JStr s => s
  | _ => py_str v
  end.

(** The line [get_status_text] appends when [last_check_time] is set. *)
Definition last_check_line (t : option datetime) : string :=
  match t with
  | Some t => (newline ++ "Last check: " ++ strftime_HMS t)%string
  | None => ""
  end.

(** [get_status_text], lines 167-177. *)
Definition get_status_text (m : monitor) : string :=
  let status :=
    if tunnel_connected m
    then (check_mark ++ " Connected" ++ newline ++ "Tunnel: " ++
          format (tunnel_name m))%string
    else (ballot_x ++ " Disconnected")%string in
  (status ++ last_check_line (last_check_time m))%string.

(** ** The menu handlers *)

(** [on_clicked], lines 179-181. *)
Definition on_clicked : M monitor unit :=
  m <- get ;;
  emit (Notify (get_status_text m)).

(** [on_check_now], lines 183-186.  The probe runs in a thread of its
    own; its effects are placed after the notification. *)
Definition on_check_now (o : probe_oracle) : M monitor unit :=
  emit (Notify "Checking tunnel status...") ;;
  _ <- check_tunnel_status o ;;
  ret tt.

(** [on_restart], lines 188-197: the body of the spawned thread. *)
Definition on_restart (o : restart_oracle) : M monitor unit :=
  emit (Notify "Restarting tunnel...") ;;
  restarted <- restart_tunnel o ;;
  if restarted : bool
  then emit (Notify "Tunnel restarted successfully")
  else emit (Notify "Failed to restart tunnel").

(** [on_view_logs], lines 199-204. *)
Definition on_view_logs (o : run_outcome) : M monitor unit :=
  try_except
    (_ <- subprocess_run Notepad None o ;; ret tt)
    (fun e => logging ERROR (FailedToOpenLog e)).

(** [on_quit], lines 206-210. *)
Definition on_quit : M monitor unit :=
  logging INFO MonitorStopping ;;
  modify (set_is_running false) ;;
  emit IconStop.

(** [start], lines 212-245, up to the point where [icon.run()] blocks
    and the menu begins to dispatch, read sequentially: the loop thread
    started at line 221 is taken to make its first test of the [while]
    once the icon exists, and creating the icon is taken not to raise.
    What is proved of single iterations holds for any object, with or
    without an icon. *)
Definition start (o : probe_oracle) : M monitor unit :=
  modify (set_is_running true) ;;
  _ <- check_tunnel_status o ;;
  m <- get ;;
  modify (set_icon (Some (if tunnel_connected m then green else red))) ;;
  logging INFO MonitorStarted.

(** ** The running program

    The loop thread and the menu handlers share [self].  A run of the
    program is a sequence of events, each executed as one step: an
    iteration of the loop thread (its [while] test, then the body), or
    one menu command.  [retry_count] lives in the frame of the loop
    thread only.

    This is the interleaving of whole iterations and whole handlers; a
    command that arrives in the middle of an iteration is not an event
    of its own.  What is proved over runs concerns [retry_count], the
    loop thread and the commands the loop issues, which depend on the
    values returned to the loop and on nothing a handler stores. *)

Inductive thread : Type := Looping | Finished.

Record system : Type := System {
  loop_frame : frame;
  loop_thread : thread
}.

Definition shared (s : system) : monitor := self (loop_frame s).

Inductive event : Type :=
| Tick (o : tick_oracle)
| Clicked
| CheckNow (o : probe_oracle)
| Restart (o : restart_oracle)
| ViewLogs (o : run_outcome)
| Quit.

(** A step of the loop thread. *)
Definition in_loop {A} (m : M frame A) : M system A :=
  fun s =>
    match m (loop_frame s) with
    | (r, f, t) => (r, {| loop_frame := f; loop_thread := loop_thread s |}, t)
    end.

(** A handler run by the menu, on the shared object. *)
Definition in_menu {A} (m : M monitor A) : M system A :=
  in_loop (call m).

Definition finish (s : system) : system :=
  {| loop_frame := loop_frame s; loop_thread := Finished |}.

Definition step (e : event) : M system unit :=
  match e with
  | Tick o =>
      s <- get ;;
      match loop_thread s with
      | Finished => ret tt
      | Looping =>
          if is_running (shared s) then in_loop (iteration o)
          else modify finish
      end
  | Clicked => in_menu on_clicked
  | CheckNow o => in_menu (on_check_now o)
  | Restart o => in_menu (on_restart o)
  | ViewLogs o => in_menu (on_view_logs o)
  | Quit => in_menu on_quit
  end.

Fixpoint run (evs : list event) : M system unit :=
  match evs with
  | [] => ret tt
  | e :: rest => step e ;; run rest
  end.

(** The program once [start] has returned control to the menu: the
    loop thread is at the head of its [while] with [retry_count = 0]. *)
Definition started (o : probe_oracle) : system :=
  {| loop_frame := {| self := state_of (start o init); retry_count := 0 |};
     loop_thread := Looping |}.

End StatusText.

(** ** Reading a run *)

(** The seconds a trace spends in [time.sleep]. *)
Fixpoint total_sleep (t : trace) : Z :=
  match t with
  | [] => 0
  | Sleep secs :: rest => secs + total_sleep rest
  | _ :: rest => total_sleep rest
  end.

(** How many times a trace spawns command [c]. *)
Definition same_command (a b : command) : bool :=
  match a, b with
  | TunnelStatus, TunnelStatus => true
  | TunnelServiceRestart, TunnelServiceRestart => true
  | Notepad, Notepad => true
  | _, _ => false
  end.

Fixpoint spawns (c : command) (t : trace) : nat :=
  match t with
  | [] => O
  | Run c' _ :: rest =>
      if same_command c c' then S (spawns c rest) else spawns c rest
  | _ :: rest => spawns c rest
  end.

(** The error records of a trace. *)
Definition is_error (e : effect) : bool :=
  match e with
  | Log ERROR _ => true
  | _ => false
  end.

(** The four ways a probe fails, after the branches and handlers of
    [check_tunnel_status]. *)
Inductive probe_error : Type :=
| Timeout
| MalformedOutput
| NonZeroExit
| Unexpected.

(** The nested object [status_data.get('tunnel', {})] when both
    [status_data] and it are objects, so that all three [get] succeed. *)
Definition tunnel_object (v : json) : option (list (string * json)) :=
  match v with
  | JObj top =>
      match lookup "tunnel" top with
      | None => Some []
      | Some (JObj info) => Some info
      | Some _ => None
      end
  | _ => None
  end.

(** Which failure, if any, an outcome of the status command is. *)
Definition failure_kind (o : run_outcome) : option probe_error :=
  match o with
  | Throws TimeoutExpired => Some Timeout
  | Throws (JSONDecodeError _) => Some MalformedOutput
  | Throws _ => Some Unexpected
  | Returns p =>
      if returncode p =? 0 then
        match stdout p with
        | NotJSON _ => Some MalformedOutput
        | JSONText v =>
            match tunnel_object v with
            | Some _ => None
            | None => Some Unexpected
            end
        end
      else Some NonZeroExit
  end.

(** What a probe, respectively a recovery, answers: the value the method
    returns, read off a run from the initial object. *)
Definition probe_connected (o : probe_oracle) : bool :=
  match value_of (check_tunnel_status o init) with
  | Ret b => b
  | Raise _ => false
  end.

Definition restart_succeeds (o : restart_oracle) : bool :=
  match value_of (restart_tunnel o init) with
  | Ret b => b
  | Raise _ => false
  end.

(** The restart command itself failed: it raised or exited non-zero. *)
Definition command_failed (o : run_outcome) : bool :=
  match o with
  | Throws _ => true
  | Returns p => negb (returncode p =? 0)
  end.

(** Successive probes, whoever makes them. *)
Fixpoint probes (os : list probe_oracle) : M monitor unit :=
  match os with
  | [] => ret tt
  | o :: rest => _ <- check_tunnel_status o ;; probes rest
  end.

(** The clock reading of the last probe of [os] that did not fail. *)
Fixpoint last_success (os : list probe_oracle) : option datetime :=
  match os with
  | [] => None
  | o :: rest =>
      match last_success rest with
      | Some t => Some t
      | None =>
          match failure_kind (status_run o) with
          | None => Some (now o)
          | Some _ => None
          end
      end
  end.

(** The exception [update_icon] raises on [m], if any: the fault strikes
    only when there is an icon to redraw. *)
Definition draw_fault (m : monitor) (o : tick_oracle) : option exn :=
  match icon m with
  | Some _ => icon_fault o
  | None => None
  end.

(** The object after a call of [update_icon] that returns. *)
Definition redrawn (c : color) (m : monitor) : monitor :=
  match icon m with
  | Some _ => set_icon (Some c) m
  | None => m
  end.

(** ** Sample inputs *)

Definition half_past_nine : datetime := DateTime 739000 9 30 5 0.
Definition ten_o_clock : datetime := DateTime 739000 10 0 0 0.

(** [{"tunnel": {"name": "dev-box", "tunnel": "Connected"}}], exit 0 *)
Definition healthy : probe_oracle :=
  {| status_run :=
       Returns (CompletedProcess 0
         (JSONText (JObj [("tunnel",
            JObj [("name", JStr "dev-box"); ("tunnel", JStr "Connected")])]))
         "");
     now := half_past_nine |}.

(** [{}], exit 0 *)
Definition empty_status : probe_oracle :=
  {| status_run := Returns (CompletedProcess 0 (JSONText (JObj [])) "");
     now := ten_o_clock |}.

(** [{"tunnel": null}], exit 0 *)
Definition null_tunnel : probe_oracle :=
  {| status_run :=
       Returns (CompletedProcess 0 (JSONText (JObj [("tunnel", JNull)])) "");
     now := ten_o_clock |}.

(** [[]], exit 0 *)
Definition array_status : probe_oracle :=
  {| status_run := Returns (CompletedProcess 0 (JSONText (JArr [])) "");
     now := ten_o_clock |}.

(** exit 1 with "network unreachable" on the error stream *)
Definition unreachable : probe_oracle :=
  {| status_run :=
       Returns (CompletedProcess 1 (NotJSON "Expecting value")
                  "network unreachable");
     now := ten_o_clock |}.

Definition timed_out : probe_oracle :=
  {| status_run := Throws TimeoutExpired; now := ten_o_clock |}.

(** An object that an earlier probe found connected as "dev-box". *)
Definition dev_box : monitor :=
  {| is_running := true;
     tunnel_connected := true;
     tunnel_name := JStr "dev-box";
     last_check_time := Some half_past_nine;
     icon := Some green |}.

(** A restart whose command is accepted and whose probe confirms. *)
Definition restart_works : restart_oracle :=
  {| restart_run := Returns (CompletedProcess 0 (NotJSON "") "");
     confirm := healthy |}.

(** A restart whose command exits with 1. *)
Definition restart_refused : restart_oracle :=
  {| restart_run := Returns (CompletedProcess 1 (NotJSON "") "access denied");
     confirm := healthy |}.

(** A loop iteration that finds the tunnel down and cannot bring it up. *)
Definition bad_tick : tick_oracle :=
  {| probe := unreachable; icon_fault := None; recovery := restart_refused |}.

(** A loop iteration that finds the tunnel up. *)
Definition good_tick : tick_oracle :=
  {| probe := healthy; icon_fault := None; recovery := restart_works |}.

(** A tick that finds the tunnel down and whose recovery fails. *)
Definition fails (o : tick_oracle) : Prop :=
  probe_connected (probe o) = false /\
  restart_succeeds (recovery o) = false.

Definition draws (o : tick_oracle) : Prop := icon_fault o = None.

Definition disconnected (o : tick_oracle) : Prop :=
  probe_connected (probe o) = false.

(** How many times a trace calls [update_icon]. *)
Fixpoint redraws (t : trace) : nat :=
  match t with
  | [] => O
  | UpdateIcon _ :: rest => S (redraws rest)
  | _ :: rest => redraws rest
  end.

(** The iteration reaches [restart_tunnel]: the probe found the tunnel
    down, [update_icon('red')] returned and the counter is below the
    limit. *)
Definition attempts_recovery (o : tick_oracle) (f : frame) : bool :=
  negb (probe_connected (probe o)) &&
  match draw_fault (self f) o with
  | None => true
  | Some _ => false
  end &&
  (retry_count f <? MAX_RETRIES).

(** A tick that finds the tunnel up. *)
Definition connected (o : tick_oracle) : Prop :=
  probe_connected (probe o) = true.

(** A tick during which drawing the icon raises. *)
Definition faults (o : tick_oracle) : Prop := icon_fault o <> None.

(** A loop iteration that finds the tunnel down and brings it up. *)
Definition recovering_tick : tick_oracle :=
  {| probe := unreachable; icon_fault := None; recovery := restart_works |}.

(** A loop iteration that finds the tunnel down while the icon backend
    is broken. *)
Definition faulty_tick : tick_oracle :=
  {| probe := unreachable;
     icon_fault := Some (OtherException "backend gone");
     recovery := restart_works |}.

(** The commands that only read: "Status" and "View Logs". *)
Definition read_only (e : event) : bool :=
  match e with
  | Clicked | ViewLogs _ => true
  | _ => false
  end.

(** What may come between two ticks of an exhausted loop without the
    loop's own probe seeing a connection: ticks that find the tunnel
    down and any menu command but "Exit"; manual checks and manual
    restarts are allowed whatever they find. *)
Definition between (e : event) : Prop :=
  match e with
  | Tick o => probe_connected (probe o) = false
  | Quit => False
  | _ => True
  end.


(** * Properties *)

(** ** The probe *)

Ltac run_probe :=
  unfold check_tunnel_status, try_except, bind, subprocess_run, json_loads,
    dict_get, logging, modify, emit, ret, raise, value_of, state_of, trace_of;
  simpl.

(** The two shapes of a probe: on a failure the flag is cleared and one
    error record is written; otherwise flag, name and time are stored. *)
Lemma check_tunnel_status_cases (o : probe_oracle) (m : monitor) :
  match failure_kind (status_run o) with
  | Some _ =>
      exists msg,
        check_tunnel_status o m =
        (Ret false, set_tunnel_connected false m,
         [Run TunnelStatus (Some STATUS_TIMEOUT); Log ERROR msg])
  | None =>
      exists v info err,
        status_run o = Returns (CompletedProcess 0 (JSONText v) err) /\
        tunnel_object v = Some info /\
        let c := match lookup "tunnel" info with
                 | Some s => equals_str s "Connected"
                 | None => false
                 end in
        let n := match lookup "name" info with
                 | Some n => n
                 | None => JStr "Unknown"
                 end in
        check_tunnel_status o m =
        (Ret c,
         set_last_check_time (Some (now o))
           (set_tunnel_name n (set_tunnel_connected c m)),
         [Run TunnelStatus (Some STATUS_TIMEOUT);
          if c then Log INFO (TunnelIsConnected n)
          else Log WARNING (TunnelIsNotConnected n)])
  end.
Proof.
  destruct o as [[[rc out err] | e] t]; simpl.
  - destruct (Z.eqb_spec rc 0) as [-> | Hrc].
    + destruct out as [msg | v]; simpl.
      * eexists. run_probe. reflexivity.
      * destruct (tunnel_object v) as [info |] eqn:Hobj.
        -- exists v, info, err. split; [reflexivity | split; [exact Hobj |]].
           destruct v as [| | | | | top]; simpl in Hobj; try discriminate.
           run_probe.
           destruct (lookup "tunnel" top) as [[| | | | | nested] |];
             try discriminate;
             injection Hobj as <-; simpl; [| reflexivity].
           destruct (lookup "tunnel" nested) as [s |]; simpl;
             [destruct (equals_str s "Connected") |];
             destruct (lookup "name" nested); reflexivity.
        -- destruct v as [| | | | | top]; simpl in Hobj;
             try (eexists; run_probe; reflexivity).
           destruct (lookup "tunnel" top) as [[] |] eqn:Hl;
             try discriminate;
             eexists; run_probe; rewrite Hl; reflexivity.
    + eexists. run_probe.
      destruct (Z.eqb_spec rc 0); [contradiction | reflexivity].
  - destruct e; eexists; run_probe; reflexivity.
Qed.

(** A probe always returns, and what it returns depends on the oracle
    alone. *)
Lemma check_tunnel_status_value (o : probe_oracle) (m : monitor) :
  value_of (check_tunnel_status o m) = Ret (probe_connected o).
Proof.
  unfold probe_connected.
  pose proof (check_tunnel_status_cases o m) as Hm.
  pose proof (check_tunnel_status_cases o init) as Hi.
  destruct (failure_kind (status_run o)).
  - destruct Hm as [? ->], Hi as [? ->]. reflexivity.
  - destruct Hm as (v & i & e & Hr & Ho & ->).
    destruct Hi as (v' & i' & e' & Hr' & Ho' & ->).
    rewrite Hr in Hr'. injection Hr' as <- <-.
    rewrite Ho in Ho'. injection Ho' as <-.
    reflexivity.
Qed.

(** The flag stored by a probe is the value it returns. *)
Lemma check_tunnel_status_flag (o : probe_oracle) (m : monitor) :
  tunnel_connected (state_of (check_tunnel_status o m)) = probe_connected o.
Proof.
  pose proof (check_tunnel_status_value o m) as Hv.
  pose proof (check_tunnel_status_cases o m) as Hm.
  destruct (failure_kind (status_run o)).
  - destruct Hm as [? Hm]. rewrite Hm in *.
    unfold value_of, state_of in *. simpl in *. congruence.
  - destruct Hm as (? & ? & ? & _ & _ & Hm). simpl in Hm. rewrite Hm in *.
    unfold value_of, state_of in *. simpl in *. congruence.
Qed.

(** A probe touches neither the running flag nor the icon. *)
Lemma check_tunnel_status_frame (o : probe_oracle) (m : monitor) :
  is_running (state_of (check_tunnel_status o m)) = is_running m /\
  icon (state_of (check_tunnel_status o m)) = icon m.
Proof.
  pose proof (check_tunnel_status_cases o m) as Hm.
  destruct (failure_kind (status_run o)).
  - destruct Hm as [? ->]. split; reflexivity.
  - destruct Hm as (? & ? & ? & _ & _ & ->). split; reflexivity.
Qed.

(** The effects of a probe: the status command once, then one record;
    no sleep and no restart command. *)
Lemma check_tunnel_status_trace (o : probe_oracle) (m : monitor) :
  exists l msg,
    trace_of (check_tunnel_status o m) =
    [Run TunnelStatus (Some STATUS_TIMEOUT); Log l msg].
Proof.
  pose proof (check_tunnel_status_cases o m) as Hm.
  destruct (failure_kind (status_run o)).
  - destruct Hm as [msg ->]. exists ERROR, msg. reflexivity.
  - destruct Hm as (? & ? & ? & _ & _ & Hm). simpl in Hm. rewrite Hm.
    unfold trace_of; simpl.
    match goal with |- context [if ?c then _ else _] => destruct c end;
      do 2 eexists; reflexivity.
Qed.

(** A probe that reports a connection did not fail. *)
Lemma probe_connected_no_failure (o : probe_oracle) :
  probe_connected o = true -> failure_kind (status_run o) = None.
Proof.
  unfold probe_connected.
  pose proof (check_tunnel_status_cases o init) as Hi.
  destruct (failure_kind (status_run o)); [| reflexivity].
  destruct Hi as [? ->]. discriminate.
Qed.

(** ** The recovery action *)

(** The two shapes of a recovery. *)
Lemma restart_tunnel_cases (o : restart_oracle) (m : monitor) :
  if command_failed (restart_run o) then
    exists msg,
      restart_tunnel o m =
      (Ret false, m,
       [Log INFO AttemptingRestart;
        Run TunnelServiceRestart (Some RESTART_TIMEOUT);
        Log ERROR msg])
  else
    restart_tunnel o m =
    (value_of (check_tunnel_status (confirm o) m),
     state_of (check_tunnel_status (confirm o) m),
     [Log INFO AttemptingRestart;
      Run TunnelServiceRestart (Some RESTART_TIMEOUT);
      Log INFO RestartCommandExecuted;
      Sleep SETTLE_DELAY] ++ trace_of (check_tunnel_status (confirm o) m)).
Proof.
  destruct o as [[[rc out err] | e] c]; simpl.
  - unfold restart_tunnel, try_except, bind, subprocess_run, logging,
      time_sleep, emit, ret; simpl.
    destruct (rc =? 0); simpl.
    + pose proof (check_tunnel_status_value c m) as Hv.
      unfold value_of, state_of, trace_of in *.
      destruct (check_tunnel_status c m) as [[[b | e] s] t]; simpl in *;
        [reflexivity | discriminate].
    + eexists. reflexivity.
  - eexists. reflexivity.
Qed.

Lemma restart_tunnel_value (o : restart_oracle) (m : monitor) :
  value_of (restart_tunnel o m) = Ret (restart_succeeds o).
Proof.
  unfold restart_succeeds.
  pose proof (restart_tunnel_cases o m) as Hm.
  pose proof (restart_tunnel_cases o init) as Hi.
  destruct (command_failed (restart_run o)).
  - destruct Hm as [? ->], Hi as [? ->]. reflexivity.
  - rewrite Hm, Hi. unfold value_of at 1 3. simpl.
    rewrite !check_tunnel_status_value. reflexivity.
Qed.

Lemma restart_tunnel_frame (o : restart_oracle) (m : monitor) :
  is_running (state_of (restart_tunnel o m)) = is_running m /\
  icon (state_of (restart_tunnel o m)) = icon m.
Proof.
  pose proof (restart_tunnel_cases o m) as Hm.
  destruct (command_failed (restart_run o)).
  - destruct Hm as [? ->]. split; reflexivity.
  - rewrite Hm. apply check_tunnel_status_frame.
Qed.

(** ** One iteration of the monitoring loop *)

(** The branches of the loop body, one by one. *)
Lemma iteration_cases (o : tick_oracle) (f : frame) :
  let c := check_tunnel_status (probe o) (self f) in
  let m1 := state_of c in
  let t1 := trace_of c in
  iteration o f =
  if probe_connected (probe o) then
    match draw_fault m1 o with
    | Some e =>
        (Ret tt, Frame m1 0,
         t1 ++ [UpdateIcon green; Log ERROR (ErrorInLoop e);
                Sleep CHECK_INTERVAL])
    | None =>
        (Ret tt, Frame (redrawn green m1) 0,
         t1 ++ [UpdateIcon green; Sleep CHECK_INTERVAL])
    end
  else
    match draw_fault m1 o with
    | Some e =>
        (Ret tt, Frame m1 (retry_count f),
         t1 ++ [UpdateIcon red; Log ERROR (ErrorInLoop e);
                Sleep CHECK_INTERVAL])
    | None =>
        let m2 := redrawn red m1 in
        if retry_count f <? MAX_RETRIES then
          let r := restart_tunnel (recovery o) m2 in
          if restart_succeeds (recovery o) then
            (Ret tt, Frame (state_of r) 0,
             t1 ++ [UpdateIcon red;
                    Log WARNING
                      (DisconnectedAttempt (retry_count f + 1) MAX_RETRIES)]
                ++ trace_of r
                ++ [Log INFO SuccessfullyRestarted; Sleep CHECK_INTERVAL])
          else
            (Ret tt, Frame (state_of r) (retry_count f + 1),
             t1 ++ [UpdateIcon red;
                    Log WARNING
                      (DisconnectedAttempt (retry_count f + 1) MAX_RETRIES)]
                ++ trace_of r
                ++ [Sleep RETRY_DELAY; Sleep CHECK_INTERVAL])
        else
          (Ret tt, Frame m2 (retry_count f),
           t1 ++ [UpdateIcon red; Log ERROR (FailedAfterAttempts MAX_RETRIES);
                  Sleep CHECK_INTERVAL; Sleep CHECK_INTERVAL])
    end.
Proof.
  intros c m1 t1.
  pose proof (check_tunnel_status_value (probe o) (self f)) as Hv.
  fold c in Hv. subst m1 t1.
  unfold iteration, try_except, bind, call. fold c.
  unfold value_of, state_of, trace_of in *.
  destruct c as [[v m1] t1]. simpl in Hv. subst v. simpl.
  unfold draw_fault, redrawn.
  destruct (probe_connected (probe o)); simpl.
  - unfold update_icon, bind, emit, get, modify, raise, ret; simpl.
    destruct (icon m1); simpl; [destruct (icon_fault o); simpl |];
      rewrite <- ?app_assoc; reflexivity.
  - unfold update_icon, bind, emit, get, modify, raise, ret; simpl.
    destruct (icon m1) eqn:Hicon; simpl; [destruct (icon_fault o); simpl |];
      try (rewrite <- ?app_assoc; reflexivity).
    + destruct (retry_count f <? MAX_RETRIES); simpl;
        [| rewrite <- ?app_assoc; reflexivity].
      pose proof (restart_tunnel_value (recovery o) (set_icon (Some red) m1))
        as Hr.
      unfold value_of in Hr.
      destruct (restart_tunnel (recovery o) (set_icon (Some red) m1))
        as [[v m3] t3].
      simpl in Hr. subst v. simpl.
      destruct (restart_succeeds (recovery o)); simpl;
        rewrite <- ?app_assoc; reflexivity.
    + destruct (retry_count f <? MAX_RETRIES); simpl;
        [| rewrite <- ?app_assoc; reflexivity].
      pose proof (restart_tunnel_value (recovery o) m1) as Hr.
      unfold value_of in Hr.
      destruct (restart_tunnel (recovery o) m1) as [[v m3] t3].
      simpl in Hr. subst v. simpl.
      destruct (restart_succeeds (recovery o)); simpl;
        rewrite <- ?app_assoc; reflexivity.
Qed.

(** ** Claims about the probe *)

Lemma equals_str_true (v : json) (s : string) :
  equals_str v s = true <-> v = JStr s.
Proof.
  destruct v; simpl; try (split; [discriminate | intros [=]]).
  rewrite String.eqb_eq. split; [intros -> | intros [=]]; congruence.
Qed.

(** C7. Every failing probe, of whichever kind (time-out, malformed
    output, non-zero exit, any other fault), returns [False] without
    raising, stores [tunnel_connected = False], leaves the stored tunnel
    name as it was and writes an error record. *)
Theorem probe_failure_degrades (o : probe_oracle) (m : monitor)
    (k : probe_error) :
  failure_kind (status_run o) = Some k ->
  let r := check_tunnel_status o m in
  value_of r = Ret false /\
  tunnel_connected (state_of r) = false /\
  tunnel_name (state_of r) = tunnel_name m /\
  exists msg, In (Log ERROR msg) (trace_of r).
Proof.
  intros Hk r. subst r.
  pose proof (check_tunnel_status_cases o m) as Hm.
  rewrite Hk in Hm. destruct Hm as [msg ->].
  repeat split. exists msg. simpl. auto.
Qed.

(** Each of the four kinds occurs; the stored name survives each. *)
Lemma probe_failure_degrades_witness :
  failure_kind (status_run timed_out) = Some Timeout /\
  failure_kind (status_run unreachable) = Some NonZeroExit /\
  failure_kind (status_run array_status) = Some Unexpected /\
  value_of (check_tunnel_status timed_out dev_box) = Ret false /\
  tunnel_name (state_of (check_tunnel_status unreachable dev_box)) =
    JStr "dev-box" /\
  tunnel_connected (state_of (check_tunnel_status array_status dev_box)) =
    false.
Proof.
  split; [reflexivity | split; [reflexivity | split; [reflexivity |]]].
  split; [| split].
  - apply (probe_failure_degrades timed_out dev_box Timeout). reflexivity.
  - apply (probe_failure_degrades unreachable dev_box NonZeroExit).
    reflexivity.
  - apply (probe_failure_degrades array_status dev_box Unexpected).
    reflexivity.
Defined.

(** C8, as the code has it. On a zero-exit probe whose output parses to
    an object whose "tunnel" member is absent or itself an object, the
    probe returns and stores [True] exactly when the nested "tunnel"
    field is the string "Connected", the stored name is the nested
    "name" field or "Unknown" when that is absent, the time is stamped
    and no error is logged.  Any other parseable output goes to the
    generic handler: [False], name unchanged, an error record. *)
Theorem structured_status_extracted (o : probe_oracle) (m : monitor)
    (v : json) (err : string) :
  status_run o = Returns (CompletedProcess 0 (JSONText v) err) ->
  let r := check_tunnel_status o m in
  match tunnel_object v with
  | Some info =>
      (value_of r = Ret true <->
       lookup "tunnel" info = Some (JStr "Connected")) /\
      value_of r = Ret (tunnel_connected (state_of r)) /\
      tunnel_name (state_of r) =
        match lookup "name" info with
        | Some n => n
        | None => JStr "Unknown"
        end /\
      last_check_time (state_of r) = Some (now o) /\
      forallb (fun e => negb (is_error e)) (trace_of r) = true
  | None =>
      value_of r = Ret false /\
      tunnel_connected (state_of r) = false /\
      tunnel_name (state_of r) = tunnel_name m /\
      exists e, In (Log ERROR (ErrorCheckingStatus e)) (trace_of r)
  end.
Proof.
  intros Hrun r. subst r.
  pose proof (check_tunnel_status_cases o m) as Hm.
  unfold failure_kind in Hm. rewrite Hrun in Hm. simpl in Hm.
  destruct (tunnel_object v) as [info |] eqn:Hobj.
  - destruct Hm as (v' & info' & err' & Hr & Ho & Hm).
    injection Hr as <- <-.
    rewrite Hobj in Ho. injection Ho as <-.
    simpl in Hm. rewrite Hm. unfold value_of, state_of, trace_of. simpl.
    repeat split.
    + intros [= Hc]. destruct (lookup "tunnel" info) as [s |];
        [| discriminate].
      apply equals_str_true in Hc. congruence.
    + intros ->. reflexivity.
    + destruct (match lookup "tunnel" info with
                | Some s => equals_str s "Connected"
                | None => false
                end); reflexivity.
  - clear Hm.
    destruct o as [run t]. simpl in Hrun. subst run.
    destruct v as [| b | n | s | items | members]; simpl in Hobj;
      try discriminate.
    all: try (run_probe; split; [| split; [| split]]; try reflexivity;
              eexists; right; left; reflexivity).
    destruct (lookup "tunnel" members) as [[] |] eqn:Hl; try discriminate;
      run_probe; rewrite Hl; simpl; (split; [| split; [| split]]);
      try reflexivity; eexists; right; left; reflexivity.
Qed.

Lemma structured_status_extracted_witness :
  value_of (check_tunnel_status healthy init) = Ret true /\
  tunnel_name (state_of (check_tunnel_status healthy init)) = JStr "dev-box" /\
  value_of (check_tunnel_status empty_status dev_box) = Ret false /\
  tunnel_name (state_of (check_tunnel_status empty_status dev_box)) =
    JStr "Unknown".
Proof.
  pose proof (structured_status_extracted healthy init _ _ eq_refl) as H1.
  pose proof (structured_status_extracted empty_status dev_box _ _ eq_refl)
    as H2.
  simpl in H1, H2.
  destruct H1 as (H1 & _ & H1n & _), H2 as (_ & H2v & H2n & _).
  split; [apply H1; reflexivity |].
  split; [exact H1n |].
  split; [exact H2v | exact H2n].
Defined.

(** C8, as stated, fails: [{"tunnel": null}] and [[]] both parse, exit
    code 0, and lack the nested object; the probe does not store
    "Unknown" but keeps the earlier name, and it logs an error. *)
Lemma structured_status_counterexample :
  tunnel_name (state_of (check_tunnel_status null_tunnel dev_box)) =
    JStr "dev-box" /\
  tunnel_name (state_of (check_tunnel_status null_tunnel dev_box)) <>
    JStr "Unknown" /\
  trace_of (check_tunnel_status null_tunnel dev_box) =
    [Run TunnelStatus (Some STATUS_TIMEOUT);
     Log ERROR (ErrorCheckingStatus (AttributeError JNull))] /\
  tunnel_name (state_of (check_tunnel_status array_status dev_box)) <>
    JStr "Unknown" /\
  trace_of (check_tunnel_status array_status dev_box) =
    [Run TunnelStatus (Some STATUS_TIMEOUT);
     Log ERROR (ErrorCheckingStatus (AttributeError (JArr [])))].
Proof.
  repeat split; try reflexivity; vm_compute; discriminate.
Qed.

(** The time a probe leaves in [last_check_time]. *)
Lemma check_tunnel_status_time (o : probe_oracle) (m : monitor) :
  last_check_time (state_of (check_tunnel_status o m)) =
  match failure_kind (status_run o) with
  | None => Some (now o)
  | Some _ => last_check_time m
  end.
Proof.
  pose proof (check_tunnel_status_cases o m) as Hm.
  destruct (failure_kind (status_run o)).
  - destruct Hm as [? ->]. reflexivity.
  - destruct Hm as (? & ? & ? & _ & _ & ->). reflexivity.
Qed.

(** Successive probes leave in [last_check_time] the clock reading of
    the last one that did not fail. *)
Lemma probes_last_check_time (os : list probe_oracle) (m : monitor) :
  last_check_time (state_of (probes os m)) =
  match last_success os with
  | Some t => Some t
  | None => last_check_time m
  end.
Proof.
  revert m. induction os as [| o os IH]; intros m; [reflexivity |].
  simpl. unfold bind.
  pose proof (check_tunnel_status_value o m) as Hv.
  pose proof (check_tunnel_status_time o m) as Ht.
  unfold value_of, state_of in *.
  destruct (check_tunnel_status o m) as [[[b | e] m1] t1];
    simpl in *; [| discriminate].
  specialize (IH m1).
  destruct (probes os m1) as [[r m2] t2]. simpl in *. rewrite IH.
  destruct (last_success os); [reflexivity |].
  rewrite Ht. destruct (failure_kind (status_run o)); reflexivity.
Qed.

(** C10, as the code has it. [last_check_time] changes only in a probe
    whose command exited with 0 and whose output parsed to an object
    whose "tunnel" member is absent or itself an object, that is, in a
    probe that does not fail; every failing probe, a parseable output
    of another shape included, leaves it as it was, and every other
    probe stamps it.  Hence after any succession of probes it holds the
    time of the last probe that did not fail, and the status text is
    the connection line followed by "Last check: " and that time, or by
    nothing if no probe has succeeded yet. *)
Theorem last_check_time_tracks_success (py_str : json -> string)
    (o : probe_oracle) (os : list probe_oracle) (m : monitor) :
  let r := check_tunnel_status o m in
  let m' := state_of (probes os m) in
  let shown := match last_success os with
               | Some t => Some t
               | None => last_check_time m
               end in
  (last_check_time (state_of r) <> last_check_time m ->
   exists v info err,
     status_run o = Returns (CompletedProcess 0 (JSONText v) err) /\
     tunnel_object v = Some info) /\
  (forall k, failure_kind (status_run o) = Some k ->
             last_check_time (state_of r) = last_check_time m) /\
  (failure_kind (status_run o) = None ->
   last_check_time (state_of r) = Some (now o)) /\
  last_check_time m' = shown /\
  get_status_text py_str m' =
    ((if tunnel_connected m'
      then check_mark ++ " Connected" ++ newline ++ "Tunnel: " ++
           format py_str (tunnel_name m')
      else ballot_x ++ " Disconnected") ++
     match shown with
     | Some t => newline ++ "Last check: " ++ strftime_HMS t
     | None => ""
     end)%string.
Proof.
  intros r m' shown. subst r m' shown.
  pose proof (check_tunnel_status_cases o m) as Hm.
  split; [| split; [| split; [| split]]].
  - intros Hne. destruct (failure_kind (status_run o)).
    + destruct Hm as [? Hm]. rewrite Hm in Hne. contradiction Hne.
      reflexivity.
    + destruct Hm as (v & info & err & Hr & Ho & _). eauto.
  - intros k Hk. rewrite Hk in Hm. destruct Hm as [? ->]. reflexivity.
  - intros Hk. rewrite Hk in Hm.
    destruct Hm as (? & ? & ? & _ & _ & ->). reflexivity.
  - apply probes_last_check_time.
  - unfold get_status_text, last_check_line.
    rewrite probes_last_check_time. reflexivity.
Qed.

(** C10, as stated, fails: after a successful probe at 09:30:05 the
    status command exits with 0 and prints [{"tunnel": null}] at ten,
    which [json.loads] accepts; the time stays 09:30:05 and so does the
    status text. *)
Lemma last_check_time_counterexample :
  let m := state_of (probes [healthy; null_tunnel] init) in
  status_run null_tunnel =
    Returns (CompletedProcess 0 (JSONText (JObj [("tunnel", JNull)])) "") /\
  now null_tunnel = ten_o_clock /\
  last_check_time m = Some half_past_nine /\
  last_check_time m <> Some (now null_tunnel) /\
  get_status_text (fun _ => "") m =
    (ballot_x ++ " Disconnected" ++ newline ++ "Last check: 09:30:05")%string.
Proof.
  cbv zeta. repeat split; try reflexivity. vm_compute. discriminate.
Qed.

(** A failed attempt at ten does not move the time shown: 09:30:05. *)
Example status_text_after_failure :
  get_status_text (fun _ => "")
    (state_of (probes [healthy; unreachable] init)) =
  (ballot_x ++ " Disconnected" ++ newline ++ "Last check: 09:30:05")%string.
Proof. reflexivity. Qed.

Example status_text_connected :
  get_status_text (fun _ => "") (state_of (probes [healthy] init)) =
  (check_mark ++ " Connected" ++ newline ++ "Tunnel: dev-box" ++ newline ++
   "Last check: 09:30:05")%string.
Proof. reflexivity. Qed.

(** ** Claims about the recovery action *)

(** C6. When the restart command fails (it raises, or exits non-zero)
    [restart_tunnel] returns [False] at once: nothing is stored, nothing
    is slept, no probe is made.  When it exits with 0 the method sleeps
    the settle delay of 5, probes exactly once and returns what that
    probe returns, which is [False] whenever the probe fails. *)
Theorem restart_then_confirm (o : restart_oracle) (m : monitor) :
  let r := restart_tunnel o m in
  let c := check_tunnel_status (confirm o) m in
  if command_failed (restart_run o) then
    value_of r = Ret false /\
    state_of r = m /\
    spawns TunnelStatus (trace_of r) = 0%nat /\
    total_sleep (trace_of r) = 0
  else
    trace_of r =
      [Log INFO AttemptingRestart;
       Run TunnelServiceRestart (Some RESTART_TIMEOUT);
       Log INFO RestartCommandExecuted;
       Sleep SETTLE_DELAY] ++ trace_of c /\
    spawns TunnelStatus (trace_of r) = 1%nat /\
    total_sleep (trace_of r) = 5 /\
    value_of r = value_of c /\
    state_of r = state_of c /\
    value_of r = Ret (probe_connected (confirm o)) /\
    (forall k, failure_kind (status_run (confirm o)) = Some k ->
               value_of r = Ret false).
Proof.
  intros r c. subst r c.
  pose proof (restart_tunnel_cases o m) as Hm.
  destruct (command_failed (restart_run o)).
  - destruct Hm as [msg ->]. repeat split.
  - rewrite Hm. unfold value_of at 1 3 4, state_of at 1, trace_of at 1 2 3.
    simpl.
    destruct (check_tunnel_status_trace (confirm o) m) as (l & msg & Ht).
    rewrite Ht. simpl.
    split; [reflexivity | split; [reflexivity | split; [reflexivity |]]].
    split; [reflexivity | split; [reflexivity |]].
    split; [apply check_tunnel_status_value |].
    intros k Hk.
    pose proof (check_tunnel_status_cases (confirm o) m) as Hc.
    rewrite Hk in Hc. destruct Hc as [? ->]. reflexivity.
Qed.

Example restart_refused_trace :
  restart_tunnel restart_refused dev_box =
  (Ret false, dev_box,
   [Log INFO AttemptingRestart;
    Run TunnelServiceRestart (Some 30);
    Log ERROR (FailedToRestart "access denied")]).
Proof. reflexivity. Qed.

Example restart_works_trace :
  trace_of (restart_tunnel restart_works init) =
  [Log INFO AttemptingRestart;
   Run TunnelServiceRestart (Some 30);
   Log INFO RestartCommandExecuted;
   Sleep 5;
   Run TunnelStatus (Some 10);
   Log INFO (TunnelIsConnected (JStr "dev-box"))].
Proof. reflexivity. Qed.

(** ** Claims about one iteration of the loop *)

Lemma value_of_run {S A} (v : result A) (s : S) (t : trace) :
  value_of (v, s, t) = v.
Proof. reflexivity. Qed.

Lemma state_of_run {S A} (v : result A) (s : S) (t : trace) :
  state_of (v, s, t) = s.
Proof. reflexivity. Qed.

Lemma trace_of_run {S A} (v : result A) (s : S) (t : trace) :
  trace_of (v, s, t) = t.
Proof. reflexivity. Qed.

Ltac project := rewrite ?value_of_run, ?state_of_run, ?trace_of_run.

Lemma spawns_app (c : command) (t u : trace) :
  spawns c (t ++ u) = (spawns c t + spawns c u)%nat.
Proof.
  induction t as [| [] t IH]; simpl; try assumption; [reflexivity |].
  destruct (same_command c c0); simpl; rewrite IH; reflexivity.
Qed.

Lemma total_sleep_app (t u : trace) :
  total_sleep (t ++ u) = total_sleep t + total_sleep u.
Proof.
  induction t as [| [] t IH]; simpl; try assumption; [reflexivity | lia].
Qed.

(** What a probe contributes to the counts of a trace. *)
Lemma check_tunnel_status_counts (o : probe_oracle) (m : monitor) :
  let t := trace_of (check_tunnel_status o m) in
  spawns TunnelStatus t = 1%nat /\
  spawns TunnelServiceRestart t = 0%nat /\
  total_sleep t = 0.
Proof.
  destruct (check_tunnel_status_trace o m) as (l & msg & ->).
  repeat split.
Qed.

(** What a recovery contributes. *)
Lemma restart_tunnel_counts (o : restart_oracle) (m : monitor) :
  let t := trace_of (restart_tunnel o m) in
  spawns TunnelServiceRestart t = 1%nat /\
  total_sleep t = if command_failed (restart_run o) then 0 else SETTLE_DELAY.
Proof.
  pose proof (restart_tunnel_cases o m) as Hm. cbv zeta.
  destruct (command_failed (restart_run o)).
  - destruct Hm as [msg ->]. split; reflexivity.
  - rewrite Hm. unfold trace_of at 1 3. simpl.
    destruct (check_tunnel_status_trace (confirm o) m) as (l & msg & ->).
    split; reflexivity.
Qed.

(** The probe does not touch the icon, so whether [update_icon] raises
    is settled before the iteration starts. *)
Lemma draw_fault_after_probe (o : tick_oracle) (p : probe_oracle)
    (m : monitor) :
  draw_fault (state_of (check_tunnel_status p m)) o = draw_fault m o.
Proof.
  unfold draw_fault.
  destruct (check_tunnel_status_frame p m) as [_ ->]. reflexivity.
Qed.

Lemma redrawn_frame (c : color) (m : monitor) :
  is_running (redrawn c m) = is_running m /\
  tunnel_connected (redrawn c m) = tunnel_connected m /\
  (icon (redrawn c m) = None <-> icon m = None).
Proof.
  unfold redrawn. destruct (icon m) eqn:Hi; simpl; rewrite ?Hi;
    repeat split; auto; discriminate.
Qed.

(** An iteration always completes, keeps the running flag, and neither
    creates nor removes the icon. *)
Lemma iteration_frame (o : tick_oracle) (f : frame) :
  let r := iteration o f in
  value_of r = Ret tt /\
  is_running (self (state_of r)) = is_running (self f) /\
  (icon (self (state_of r)) = None <-> icon (self f) = None).
Proof.
  intros r. subst r. rewrite iteration_cases.
  destruct (check_tunnel_status_frame (probe o) (self f)) as [Hrun Hicon].
  set (m1 := state_of (check_tunnel_status (probe o) (self f))) in *.
  destruct (redrawn_frame green m1) as (Hg1 & _ & Hg2).
  destruct (redrawn_frame red m1) as (Hr1 & _ & Hr2).
  destruct (restart_tunnel_frame (recovery o) (redrawn red m1)) as [Hs1 Hs2].
  unfold value_of, state_of in *.
  destruct (probe_connected (probe o)), (draw_fault m1 o); simpl;
    try destruct (retry_count f <? MAX_RETRIES);
    try destruct (restart_succeeds (recovery o)); simpl;
    rewrite ?Hs1, ?Hs2, ?Hg1, ?Hr1, ?Hrun, <- ?Hicon;
    repeat split; try tauto.
Qed.

(** How an iteration moves [retry_count]: to 0 after a successful
    observation or recovery, up by one below the limit after a failed
    recovery, and not at all otherwise. *)
Lemma iteration_retry_count (o : tick_oracle) (f : frame) :
  let n := retry_count f in
  let n' := retry_count (state_of (iteration o f)) in
  (n' = 0 /\
   (probe_connected (probe o) = true \/
    restart_succeeds (recovery o) = true)) \/
  n' = n \/
  (n' = n + 1 /\ n < MAX_RETRIES /\
   probe_connected (probe o) = false /\
   restart_succeeds (recovery o) = false).
Proof.
  intros n n'. subst n n'. rewrite iteration_cases.
  unfold state_of at 1.
  destruct (probe_connected (probe o)),
    (draw_fault (state_of (check_tunnel_status (probe o) (self f))) o);
    simpl; auto.
  destruct (Z.ltb_spec (retry_count f) MAX_RETRIES); simpl; auto.
  destruct (restart_succeeds (recovery o)); simpl; auto.
  right; right. auto.
Qed.

(** The counter after an iteration, branch by branch. *)
Lemma iteration_retry_count_exact (o : tick_oracle) (f : frame) :
  retry_count (state_of (iteration o f)) =
  if probe_connected (probe o) then 0
  else
    match draw_fault (self f) o with
    | Some _ => retry_count f
    | None =>
        if retry_count f <? MAX_RETRIES then
          if restart_succeeds (recovery o) then 0 else retry_count f + 1
        else retry_count f
    end.
Proof.
  rewrite iteration_cases, draw_fault_after_probe.
  destruct (probe_connected (probe o)), (draw_fault (self f) o);
    try reflexivity.
  destruct (retry_count f <? MAX_RETRIES); [| reflexivity].
  destruct (restart_succeeds (recovery o)); reflexivity.
Qed.

(** C4. Whenever the probe of an iteration reports a connection, for
    every earlier value of the counter, the iteration completes with
    [tunnel_connected = True] and [retry_count = 0], calls
    [update_icon('green')] (which turns an existing icon green unless
    drawing faults) and attempts no recovery: no restart command, no
    second probe, no "attempting restart" record. *)
Theorem connected_tick_resets (o : tick_oracle) (f : frame) :
  value_of (check_tunnel_status (probe o) (self f)) = Ret true ->
  let r := iteration o f in
  value_of r = Ret tt /\
  tunnel_connected (self (state_of r)) = true /\
  retry_count (state_of r) = 0 /\
  In (UpdateIcon green) (trace_of r) /\
  spawns TunnelServiceRestart (trace_of r) = 0%nat /\
  spawns TunnelStatus (trace_of r) = 1%nat /\
  ~ In (Log INFO AttemptingRestart) (trace_of r) /\
  (icon (self f) <> None -> icon_fault o = None ->
   icon (self (state_of r)) = Some green).
Proof.
  intros Hv r. subst r.
  rewrite check_tunnel_status_value in Hv. injection Hv as Hc.
  rewrite iteration_cases, Hc.
  pose proof (check_tunnel_status_flag (probe o) (self f)) as Hflag.
  destruct (check_tunnel_status_frame (probe o) (self f)) as [_ Hicon].
  destruct (check_tunnel_status_trace (probe o) (self f)) as (l & msg & Ht).
  rewrite Hc in Hflag.
  set (m1 := state_of (check_tunnel_status (probe o) (self f))) in *.
  rewrite Ht.
  assert (Hl : Log l msg <> Log INFO AttemptingRestart).
  { intros [= -> ->].
    pose proof (check_tunnel_status_cases (probe o) (self f)) as Hm.
    destruct (failure_kind (status_run (probe o))).
    - destruct Hm as [? Hm]. rewrite Hm in Ht. discriminate Ht.
    - destruct Hm as (? & ? & ? & _ & _ & Hm). simpl in Hm.
      rewrite Hm in Ht. unfold trace_of in Ht. simpl in Ht.
      match type of Ht with
      | context [if ?c then _ else _] => destruct c
      end; discriminate Ht. }
  unfold draw_fault, redrawn.
  destruct (icon m1) as [c0 |] eqn:Hi; [destruct (icon_fault o) |];
    unfold value_of, state_of, trace_of; simpl.
  all: split; [reflexivity |].
  all: split; [assumption |].
  all: split; [reflexivity |].
  all: split; [do 2 right; left; reflexivity |].
  all: split; [reflexivity |].
  all: split; [reflexivity |].
  all: split; [| intros Hne Hf; congruence].
  all: intros H;
    repeat (destruct H as [H | H];
            [try discriminate H; try (apply Hl; exact H) |]);
    exact H.
Qed.

Lemma connected_tick_resets_witness :
  retry_count (state_of (iteration good_tick (Frame dev_box 3))) = 0 /\
  icon (self (state_of (iteration good_tick (Frame dev_box 3)))) =
    Some green.
Proof.
  pose proof (connected_tick_resets good_tick (Frame dev_box 3) eq_refl)
    as (_ & _ & Hn & _ & _ & _ & _ & Hi).
  split; [exact Hn |].
  apply Hi; [discriminate | reflexivity].
Defined.

(** C1, as the code has it. In an iteration that finds the tunnel
    disconnected with [retry_count] at the limit, and whose
    [update_icon('red')] returns, the exhausted branch sleeps
    [CHECK_INTERVAL] and the end of the body sleeps [CHECK_INTERVAL]
    again: 60 seconds pass before the next probe, with the counter
    untouched and no restart command. *)
Theorem exhausted_tick_sleeps_twice (o : tick_oracle) (f : frame) :
  probe_connected (probe o) = false ->
  MAX_RETRIES <= retry_count f ->
  draw_fault (self f) o = None ->
  let r := iteration o f in
  trace_of r =
    trace_of (check_tunnel_status (probe o) (self f)) ++
    [UpdateIcon red; Log ERROR (FailedAfterAttempts MAX_RETRIES);
     Sleep CHECK_INTERVAL; Sleep CHECK_INTERVAL] /\
  total_sleep (trace_of r) = 2 * CHECK_INTERVAL /\
  spawns TunnelServiceRestart (trace_of r) = 0%nat /\
  retry_count (state_of r) = retry_count f.
Proof.
  intros Hc Hn Hd r. subst r.
  rewrite iteration_cases, Hc, draw_fault_after_probe, Hd.
  destruct (Z.ltb_spec (retry_count f) MAX_RETRIES) as [Hlt | _]; [lia |].
  project. simpl.
  rewrite total_sleep_app, spawns_app.
  destruct (check_tunnel_status_counts (probe o) (self f)) as (_ & -> & ->).
  repeat split.
Qed.

Lemma exhausted_tick_sleeps_twice_witness :
  total_sleep (trace_of (iteration bad_tick (Frame dev_box 3))) = 60.
Proof.
  apply (exhausted_tick_sleeps_twice bad_tick (Frame dev_box 3)).
  - reflexivity.
  - simpl. unfold MAX_RETRIES. lia.
  - reflexivity.
Defined.

(** C1, as stated, fails: the fourth of four failing iterations takes
    the exhausted branch and sleeps 60 seconds, not [CHECK_INTERVAL]. *)
Lemma exhausted_tick_counterexample :
  let f3 := state_of (while_running [bad_tick; bad_tick; bad_tick]
                        (Frame dev_box 0)) in
  let r := iteration bad_tick f3 in
  retry_count f3 = MAX_RETRIES /\
  trace_of r =
    [Run TunnelStatus (Some 10);
     Log ERROR (FailedToCheckStatus "network unreachable");
     UpdateIcon red;
     Log ERROR (FailedAfterAttempts 3);
     Sleep 30;
     Sleep 30] /\
  total_sleep (trace_of r) = 60 /\
  total_sleep (trace_of r) <> CHECK_INTERVAL.
Proof.
  repeat split; try reflexivity. vm_compute. discriminate.
Qed.

(** ** Claims about successive iterations *)

Lemma while_running_cons (o : tick_oracle) (os : list tick_oracle)
    (f : frame) :
  is_running (self f) = true ->
  let f1 := state_of (iteration o f) in
  value_of (while_running (o :: os) f) = value_of (while_running os f1) /\
  state_of (while_running (o :: os) f) = state_of (while_running os f1) /\
  trace_of (while_running (o :: os) f) =
    trace_of (iteration o f) ++ trace_of (while_running os f1).
Proof.
  intros Hrun f1. subst f1.
  simpl. unfold bind at 1 3 5, get. simpl. rewrite Hrun.
  unfold bind.
  destruct (iteration_frame o f) as (Hv & _).
  unfold value_of, state_of, trace_of in *.
  destruct (iteration o f) as [[v f1] t1]. simpl in *. subst v.
  destruct (while_running os f1) as [[v2 f2] t2]. repeat split.
Qed.

(** Below the limit every failed recovery adds one to the counter. *)
Lemma failing_ticks (os : list tick_oracle) (f : frame) :
  is_running (self f) = true ->
  Forall fails os ->
  icon (self f) = None \/ Forall draws os ->
  retry_count f + Z.of_nat (List.length os) <= MAX_RETRIES ->
  let r := while_running os f in
  retry_count (state_of r) = retry_count f + Z.of_nat (List.length os) /\
  is_running (self (state_of r)) = true /\
  spawns TunnelServiceRestart (trace_of r) = List.length os.
Proof.
  revert f. induction os as [| o os IH]; intros f Hrun Hf Hd Hn.
  - unfold state_of, trace_of. simpl. repeat split; [lia | assumption].
  - cbv zeta.
    destruct (while_running_cons o os f Hrun) as (_ & -> & ->).
    inversion Hf as [| ? ? [Hp Hr] Hf']; subst.
    destruct (iteration_frame o f) as (_ & Hrun1 & Hicon1).
    assert (Hdraw : draw_fault (self f) o = None).
    { unfold draw_fault. destruct Hd as [-> | Hd]; [reflexivity |].
      inversion Hd; subst. destruct (icon (self f)); auto. }
    assert (Hstep : retry_count (state_of (iteration o f)) = retry_count f + 1
                    /\ spawns TunnelServiceRestart (trace_of (iteration o f))
                       = 1%nat).
    { rewrite iteration_cases, Hp, draw_fault_after_probe, Hdraw, Hr.
      simpl List.length in Hn.
      destruct (Z.ltb_spec (retry_count f) MAX_RETRIES); [| lia].
      project. simpl.
      rewrite spawns_app. simpl. rewrite spawns_app.
      destruct (check_tunnel_status_counts (probe o) (self f))
        as (_ & -> & _).
      match goal with
      | |- context [restart_tunnel ?a ?b] =>
          destruct (restart_tunnel_counts a b) as [-> _]
      end.
      split; reflexivity. }
    destruct Hstep as [Hn1 Hs1].
    destruct (IH (state_of (iteration o f))) as (IHn & IHr & IHs).
    + congruence.
    + assumption.
    + destruct Hd as [Hd | Hd]; [left; tauto | right].
      inversion Hd; assumption.
    + rewrite Hn1. simpl List.length in Hn. lia.
    + rewrite IHn, Hn1, spawns_app, Hs1, IHs. simpl List.length.
      repeat split; [lia | assumption].
Qed.

(** At the limit a disconnected tick changes nothing: it probes, issues
    no restart command and keeps the counter. *)
Lemma exhausted_ticks (os : list tick_oracle) (f : frame) :
  is_running (self f) = true ->
  MAX_RETRIES <= retry_count f ->
  Forall disconnected os ->
  let r := while_running os f in
  retry_count (state_of r) = retry_count f /\
  is_running (self (state_of r)) = true /\
  spawns TunnelServiceRestart (trace_of r) = 0%nat /\
  spawns TunnelStatus (trace_of r) = List.length os.
Proof.
  revert f. induction os as [| o os IH]; intros f Hrun Hn Hd.
  - unfold state_of, trace_of. simpl. repeat split. assumption.
  - cbv zeta.
    destruct (while_running_cons o os f Hrun) as (_ & -> & ->).
    inversion Hd as [| ? ? Hp Hd']; subst.
    destruct (iteration_frame o f) as (_ & Hrun1 & _).
    assert (Hstep : retry_count (state_of (iteration o f)) = retry_count f /\
                    spawns TunnelServiceRestart (trace_of (iteration o f))
                    = 0%nat /\
                    spawns TunnelStatus (trace_of (iteration o f)) = 1%nat).
    { rewrite iteration_cases. unfold disconnected in Hp. rewrite Hp.
      destruct (check_tunnel_status_counts (probe o) (self f))
        as (Hs & Hr & _).
      destruct (draw_fault _ o);
        [| destruct (Z.ltb_spec (retry_count f) MAX_RETRIES); [lia |]];
        project; simpl; rewrite !spawns_app, Hs, Hr; repeat split. }
    destruct Hstep as (Hn1 & Hr1 & Hs1).
    destruct (IH (state_of (iteration o f))) as (IHn & IHr & IHs & IHp);
      [congruence | lia | assumption |].
    rewrite !spawns_app, IHn, Hn1, Hr1, Hs1, IHs, IHp.
    repeat split. assumption.
Qed.

(** ** The running program *)

Section Program.

Variable py_str : json -> string.

Lemma in_loop_run {A} (c : M frame A) (s : system) :
  value_of (in_loop c s) = value_of (c (loop_frame s)) /\
  loop_frame (state_of (in_loop c s)) = state_of (c (loop_frame s)) /\
  loop_thread (state_of (in_loop c s)) = loop_thread s /\
  trace_of (in_loop c s) = trace_of (c (loop_frame s)).
Proof.
  unfold in_loop, value_of, state_of, trace_of.
  destruct (c (loop_frame s)) as [[v f] t]. repeat split.
Qed.

Lemma call_run {A} (c : M monitor A) (f : frame) :
  value_of (call c f) = value_of (c (self f)) /\
  self (state_of (call c f)) = state_of (c (self f)) /\
  retry_count (state_of (call c f)) = retry_count f /\
  trace_of (call c f) = trace_of (c (self f)).
Proof.
  unfold call, value_of, state_of, trace_of.
  destruct (c (self f)) as [[v m] t]. repeat split.
Qed.

(** A menu handler runs on the shared object and cannot reach the frame
    of the loop thread. *)
Lemma in_menu_run {A} (c : M monitor A) (s : system) :
  value_of (in_menu c s) = value_of (c (shared s)) /\
  shared (state_of (in_menu c s)) = state_of (c (shared s)) /\
  retry_count (loop_frame (state_of (in_menu c s))) =
    retry_count (loop_frame s) /\
  loop_thread (state_of (in_menu c s)) = loop_thread s /\
  trace_of (in_menu c s) = trace_of (c (shared s)).
Proof.
  unfold in_menu, shared.
  destruct (in_loop_run (call c) s) as (-> & Hf & -> & ->).
  rewrite Hf.
  destruct (call_run c (loop_frame s)) as (-> & -> & -> & ->).
  repeat split.
Qed.

(** The menu handlers always return; only [on_quit] clears the running
    flag, and none of them removes the icon. *)
Lemma handlers_frame (e : event) (m : monitor) :
  let c := match e with
           | Tick _ => ret tt
           | Clicked => on_clicked py_str
           | CheckNow o => on_check_now o
           | Restart o => on_restart o
           | ViewLogs o => on_view_logs o
           | Quit => on_quit
           end in
  value_of (c m) = Ret tt /\
  icon (state_of (c m)) = icon m /\
  (e <> Quit -> is_running (state_of (c m)) = is_running m).
Proof.
  destruct e as [o | | o | o | o |]; cbv zeta.
  - repeat split.
  - repeat split.
  - unfold on_check_now, bind, emit, ret. simpl.
    pose proof (check_tunnel_status_value o m) as Hv.
    destruct (check_tunnel_status_frame o m) as [Hr Hi].
    unfold value_of, state_of in *.
    destruct (check_tunnel_status o m) as [[[b | x] m1] t1];
      simpl in *; [| discriminate].
    repeat split; auto.
  - unfold on_restart, bind, emit. simpl.
    pose proof (restart_tunnel_value o m) as Hv.
    destruct (restart_tunnel_frame o m) as [Hr Hi].
    unfold value_of, state_of in *.
    destruct (restart_tunnel o m) as [[[b | x] m1] t1];
      simpl in *; [| discriminate].
    destruct b; repeat split; auto.
  - unfold on_view_logs, try_except, bind, subprocess_run, emit, ret, raise,
      logging. simpl.
    destruct o; repeat split.
  - repeat split. intros H. contradiction H. reflexivity.
Qed.

(** What a step of the loop thread is. *)
Lemma step_tick (o : tick_oracle) (s : system) :
  step py_str (Tick o) s =
  match loop_thread s with
  | Finished => (Ret tt, s, [])
  | Looping =>
      if is_running (shared s) then in_loop (iteration o) s
      else (Ret tt, finish s, [])
  end.
Proof.
  unfold step, bind, get. simpl.
  destruct (loop_thread s); [| reflexivity].
  destruct (is_running (shared s)).
  - destruct (in_loop (iteration o) s) as [[v s1] t1].
    reflexivity.
  - reflexivity.
Qed.

(** What one step of the program preserves, and how it moves the
    counter: only an iteration of the running loop thread does. *)
Lemma step_frame (e : event) (s : system) :
  let s' := state_of (step py_str e s) in
  let n := retry_count (loop_frame s) in
  let n' := retry_count (loop_frame s') in
  value_of (step py_str e s) = Ret tt /\
  (icon (shared s') = None <-> icon (shared s) = None) /\
  (e <> Quit -> is_running (shared s') = is_running (shared s)) /\
  (loop_thread s' = loop_thread s \/
   loop_thread s' = Finished /\ is_running (shared s) = false) /\
  (n' = n \/
   exists o, e = Tick o /\ loop_thread s = Looping /\
             is_running (shared s) = true /\
             (n' = 0 /\ (probe_connected (probe o) = true \/
                         restart_succeeds (recovery o) = true) \/
              n' = n + 1 /\ n < MAX_RETRIES /\
              probe_connected (probe o) = false /\
              restart_succeeds (recovery o) = false)).
Proof.
  cbv zeta.
  destruct e as [o | | o | o | o |].
  1: { rewrite step_tick.
       destruct (loop_thread s) eqn:Hth;
         [destruct (is_running (shared s)) eqn:Hrun |].
       - destruct (in_loop_run (iteration o) s) as (-> & Hf & -> & _).
         unfold shared. rewrite Hf.
         destruct (iteration_frame o (loop_frame s)) as (-> & -> & ->).
         repeat split; auto; try tauto.
         destruct (iteration_retry_count o (loop_frame s))
           as [H | [H | H]]; [right | left | right]; eauto 10.
       - project. simpl. repeat split; auto; tauto.
       - project. repeat split; auto; tauto. }
  all: match goal with
       | |- context [step py_str ?e ?x] =>
           pose proof (handlers_frame e (shared x)) as (Hv & Hi & Hr);
           change (step py_str e x) with
             (in_menu match e with
                      | Tick _ => ret tt
                      | Clicked => on_clicked py_str
                      | CheckNow o => on_check_now o
                      | Restart o => on_restart o
                      | ViewLogs o => on_view_logs o
                      | Quit => on_quit
                      end x)
       end;
    match goal with
    | |- context [in_menu ?c ?x] =>
        destruct (in_menu_run c x) as (-> & -> & -> & -> & _)
    end;
    rewrite Hi; repeat split; auto; tauto.
Qed.

Lemma run_cons (e : event) (evs : list event) (s : system) :
  let s1 := state_of (step py_str e s) in
  value_of (run py_str (e :: evs) s) = value_of (run py_str evs s1) /\
  state_of (run py_str (e :: evs) s) = state_of (run py_str evs s1) /\
  trace_of (run py_str (e :: evs) s) =
    trace_of (step py_str e s) ++ trace_of (run py_str evs s1).
Proof.
  cbv zeta. simpl. unfold bind.
  destruct (step_frame e s) as (Hv & _).
  unfold value_of, state_of, trace_of in *.
  destruct (step py_str e s) as [[v s1] t1]. simpl in *. subst v.
  destruct (run py_str evs s1) as [[v2 s2] t2]. repeat split.
Qed.

(** A run never raises. *)
Lemma run_value (evs : list event) (s : system) :
  value_of (run py_str evs s) = Ret tt.
Proof.
  revert s. induction evs as [| e evs IH]; intros s; [reflexivity |].
  destruct (run_cons e evs s) as (-> & _). apply IH.
Qed.

(** The counter never leaves its range. *)
Lemma run_bounded (evs : list event) (s : system) :
  0 <= retry_count (loop_frame s) <= MAX_RETRIES ->
  0 <= retry_count (loop_frame (state_of (run py_str evs s))) <= MAX_RETRIES.
Proof.
  revert s. induction evs as [| e evs IH]; intros s Hs; [exact Hs |].
  destruct (run_cons e evs s) as (_ & -> & _). apply IH.
  destruct (step_frame e s) as (_ & _ & _ & _ & [-> | Hstep]); [exact Hs |].
  destruct Hstep as (o & _ & _ & _ & [[-> _] | (-> & Hlt & _)]);
    unfold MAX_RETRIES in *; lia.
Qed.

(** The icon, once created, stays. *)
Lemma run_icon (evs : list event) (s : system) :
  icon (shared s) <> None ->
  icon (shared (state_of (run py_str evs s))) <> None.
Proof.
  revert s. induction evs as [| e evs IH]; intros s Hs; [exact Hs |].
  destruct (run_cons e evs s) as (_ & -> & _). apply IH.
  destruct (step_frame e s) as (_ & Hi & _). tauto.
Qed.

(** Without a quit request the flag stays set and the thread goes on. *)
Lemma run_without_quit (evs : list event) (s : system) :
  is_running (shared s) = true ->
  loop_thread s = Looping ->
  ~ In Quit evs ->
  is_running (shared (state_of (run py_str evs s))) = true /\
  loop_thread (state_of (run py_str evs s)) = Looping.
Proof.
  revert s. induction evs as [| e evs IH]; intros s Hrun Hth Hq;
    [split; assumption |].
  destruct (run_cons e evs s) as (_ & -> & _).
  destruct (step_frame e s) as (_ & _ & Hr & Ht & _).
  apply IH.
  - rewrite Hr; [assumption |]. intros ->. apply Hq. left. reflexivity.
  - destruct Ht as [-> | [_ Hf]]; congruence.
  - intros H. apply Hq. right. assumption.
Qed.

(** The loop thread finishes only after a quit request. *)
Lemma run_finished (evs : list event) (s : system) :
  is_running (shared s) = true ->
  loop_thread s = Looping ->
  loop_thread (state_of (run py_str evs s)) = Finished ->
  In Quit evs.
Proof.
  revert s. induction evs as [| e evs IH]; intros s Hrun Hth Hfin.
  - simpl in Hfin. unfold state_of in Hfin. simpl in Hfin. congruence.
  - destruct (run_cons e evs s) as (_ & Hs & _). rewrite Hs in Hfin.
    destruct (step_frame e s) as (_ & _ & Hr & Ht & _).
    destruct e; try (left; reflexivity); right;
      (refine (IH _ _ _ Hfin);
       [ rewrite Hr; [assumption | discriminate]
       | destruct Ht as [-> | [_ Hf]]; congruence ]).
Qed.

(** The state [start] hands over. *)
Lemma started_frame (p : probe_oracle) :
  is_running (shared (started p)) = true /\
  loop_thread (started p) = Looping /\
  retry_count (loop_frame (started p)) = 0 /\
  icon (shared (started p)) <> None /\
  tunnel_connected (shared (started p)) = probe_connected p.
Proof.
  unfold started, shared, start, bind, modify, get, logging, emit. simpl.
  pose proof (check_tunnel_status_value p (set_is_running true init)) as Hv.
  pose proof (check_tunnel_status_flag p (set_is_running true init)) as Hc.
  destruct (check_tunnel_status_frame p (set_is_running true init))
    as [Hr _].
  unfold value_of, state_of in *.
  destruct (check_tunnel_status p (set_is_running true init))
    as [[[b | x] m1] t1]; simpl in *; [| discriminate].
  repeat split; try assumption. discriminate.
Qed.

(** A recovery that reports success leaves the shared flag set. *)
Lemma restart_tunnel_flag (o : restart_oracle) (m : monitor) :
  restart_succeeds o = true ->
  tunnel_connected (state_of (restart_tunnel o m)) = true.
Proof.
  intros Hs.
  pose proof (restart_tunnel_value o m) as Hv. rewrite Hs in Hv.
  pose proof (restart_tunnel_cases o m) as Hm.
  destruct (command_failed (restart_run o)).
  - destruct Hm as [msg Hm]. rewrite Hm in Hv. discriminate Hv.
  - rewrite Hm in *. project. rewrite value_of_run in Hv.
    rewrite check_tunnel_status_value in Hv. injection Hv as Hc.
    rewrite check_tunnel_status_flag. exact Hc.
Qed.

(** The thread [on_restart] spawns: two notifications around the
    recovery. *)
Lemma on_restart_run (o : restart_oracle) (m : monitor) :
  on_restart o m =
  (Ret tt, state_of (restart_tunnel o m),
   Notify "Restarting tunnel..." ::
   trace_of (restart_tunnel o m) ++
   [Notify (if restart_succeeds o then "Tunnel restarted successfully"
            else "Failed to restart tunnel")]).
Proof.
  unfold on_restart, bind, emit. simpl.
  pose proof (restart_tunnel_value o m) as Hv.
  unfold value_of, state_of, trace_of in *.
  destruct (restart_tunnel o m) as [[v m1] t1]. simpl in *. subst v.
  destruct (restart_succeeds o); reflexivity.
Qed.

(** C3. Along every run of the program from its start, whatever the
    ticks and menu commands, [retry_count] starts at 0 and stays within
    0..[MAX_RETRIES].  A step raises it by one only if it is an
    iteration that found the tunnel down below the limit and failed to
    recover it, and brings it back to 0 only if it is an iteration
    whose probe or whose recovery reported a connection. *)
Theorem retry_count_bounded (p : probe_oracle) (evs : list event)
    (e : event) :
  let s := state_of (run py_str evs (started p)) in
  let n := retry_count (loop_frame s) in
  let n' := retry_count (loop_frame (state_of (step py_str e s))) in
  retry_count (loop_frame (started p)) = 0 /\
  0 <= n <= MAX_RETRIES /\
  0 <= n' <= MAX_RETRIES /\
  (n' = n \/ n' = n + 1 \/ n' = 0) /\
  (n' = n + 1 ->
   n < MAX_RETRIES /\
   exists o, e = Tick o /\ probe_connected (probe o) = false /\
             restart_succeeds (recovery o) = false) /\
  (n' = 0 -> n <> 0 ->
   exists o, e = Tick o /\ (probe_connected (probe o) = true \/
                            restart_succeeds (recovery o) = true)).
Proof.
  cbv zeta.
  destruct (started_frame p) as (_ & _ & H0 & _).
  assert (Hn : 0 <= retry_count
                      (loop_frame (state_of (run py_str evs (started p))))
               <= MAX_RETRIES).
  { apply run_bounded. rewrite H0. unfold MAX_RETRIES. lia. }
  set (s := state_of (run py_str evs (started p))) in *.
  destruct (step_frame e s) as (_ & _ & _ & _ & Hstep).
  split; [exact H0 | split; [exact Hn |]].
  destruct Hstep as [Heq | (o & -> & _ & _ & [[Hz Hok] | (Hup & Hlt & Hp & Hr)])].
  - rewrite Heq. repeat split; try lia; auto; intros; lia.
  - rewrite Hz. unfold MAX_RETRIES in *.
    repeat split; try lia; auto; intros; try lia. eauto.
  - rewrite Hup. unfold MAX_RETRIES in *.
    repeat split; try lia; auto; intros; try lia. eauto.
Qed.

(** C2, as the code has it. A manual restart never changes
    [retry_count], whether its recovery reports success or not: the
    counter is a local of the loop thread.  Nor does it change what the
    loop does to the counter next: the following tick leaves the counter
    where it would have left it without the manual restart.  A manual
    success sets the shared flag and notifies, and a following tick
    whose probe reports a connection puts the counter back to 0. *)
Theorem manual_restart_keeps_retry_count (s : system) (o : restart_oracle)
    (t : tick_oracle) :
  let r := step py_str (Restart o) s in
  let s' := state_of r in
  retry_count (loop_frame s') = retry_count (loop_frame s) /\
  loop_thread s' = loop_thread s /\
  (restart_succeeds o = true ->
   tunnel_connected (shared s') = true /\
   In (Notify "Tunnel restarted successfully") (trace_of r)) /\
  (loop_thread s' = Looping -> is_running (shared s') = true ->
   probe_connected (probe t) = true ->
   retry_count (loop_frame (state_of (step py_str (Tick t) s'))) = 0) /\
  retry_count (loop_frame (state_of (step py_str (Tick t) s'))) =
    retry_count (loop_frame (state_of (step py_str (Tick t) s))).
Proof.
  cbv zeta.
  change (step py_str (Restart o) s) with (in_menu (on_restart o) s).
  destruct (in_menu_run (on_restart o) s) as (_ & Hsh & Hn & Hth & Htr).
  split; [exact Hn | split; [exact Hth | split; [| split]]].
  - intros Hs. rewrite Hsh, Htr, on_restart_run. project. split.
    + apply restart_tunnel_flag. exact Hs.
    + rewrite Hs. right. apply in_or_app. right. left. reflexivity.
  - intros Hl Hr Hc. rewrite step_tick, Hl, Hr.
    destruct (in_loop_run (iteration t)
                (state_of (in_menu (on_restart o) s))) as (_ & -> & _).
    rewrite iteration_cases, Hc.
    destruct (draw_fault _ t); reflexivity.
  - assert (Hframe : is_running (shared (state_of (in_menu (on_restart o) s)))
                     = is_running (shared s) /\
                     icon (shared (state_of (in_menu (on_restart o) s)))
                     = icon (shared s)).
    { rewrite Hsh, on_restart_run. project. apply restart_tunnel_frame. }
    destruct Hframe as [Hrun Hicon].
    rewrite !step_tick, Hth, Hrun.
    destruct (loop_thread s); [destruct (is_running (shared s)) |];
      project; try exact Hn.
    destruct (in_loop_run (iteration t)
                (state_of (in_menu (on_restart o) s))) as (_ & -> & _).
    destruct (in_loop_run (iteration t) s) as (_ & -> & _).
    rewrite !iteration_retry_count_exact, Hn.
    unfold draw_fault. unfold shared in Hicon. rewrite Hicon. reflexivity.
Qed.

(** C9. Along every run of the program from its start: no step raises,
    and no iteration of the loop lets an exception escape; the loop
    thread has finished only if a quit request was made; as long as
    none was made every tick runs a full iteration and leaves the
    thread looping with the flag set; and an exception raised inside an
    iteration ends that iteration with an error record and the sleep of
    [CHECK_INTERVAL], after which the thread is back at its [while]. *)
Theorem loop_survives_errors (p : probe_oracle) (evs : list event)
    (o : tick_oracle) :
  let s := state_of (run py_str evs (started p)) in
  let r := step py_str (Tick o) s in
  value_of (run py_str evs (started p)) = Ret tt /\
  value_of (iteration o (loop_frame s)) = Ret tt /\
  value_of r = Ret tt /\
  (loop_thread s = Finished -> In Quit evs) /\
  (~ In Quit evs ->
   r = in_loop (iteration o) s /\
   loop_thread (state_of r) = Looping /\
   is_running (shared (state_of r)) = true) /\
  (forall e, icon_fault o = Some e ->
   (exists before,
      trace_of (iteration o (loop_frame s)) =
      before ++ [Log ERROR (ErrorInLoop e); Sleep CHECK_INTERVAL]) /\
   (loop_thread s = Looping ->
    loop_thread (state_of r) = Looping \/
    is_running (shared s) = false)).
Proof.
  cbv zeta.
  destruct (started_frame p) as (Hrun & Hth & _ & Hicon & _).
  pose proof (run_icon evs (started p) Hicon) as Hi.
  pose proof (run_finished evs (started p) Hrun Hth) as Hfin.
  pose proof (run_without_quit evs (started p) Hrun Hth) as Hnq.
  set (s := state_of (run py_str evs (started p))) in *.
  destruct (step_frame (Tick o) s) as (Hv & _ & Hr & Ht & _).
  destruct (iteration_frame o (loop_frame s)) as (Hiv & _).
  split; [apply run_value | split; [exact Hiv | split; [exact Hv |]]].
  split; [exact Hfin | split].
  - intros Hq. destruct (Hnq Hq) as [Hr' Ht'].
    rewrite step_tick, Ht', Hr'.
    destruct (in_loop_run (iteration o) s) as (_ & Hf & -> & _).
    unfold shared. rewrite Hf.
    destruct (iteration_frame o (loop_frame s)) as (_ & -> & _).
    repeat split; assumption.
  - intros e He. split.
    + rewrite iteration_cases, draw_fault_after_probe.
      unfold draw_fault. fold (shared s).
      destruct (icon (shared s)); [| contradiction Hi; reflexivity].
      rewrite He.
      destruct (probe_connected (probe o)); project;
        eexists (_ ++ [_]); rewrite <- app_assoc; reflexivity.
    + intros Hl. destruct Ht as [-> | [_ Hf]]; auto.
Qed.

End Program.

(** The program with only its loop thread stepping is
    [monitoring_loop]'s [while]. *)
Lemma run_ticks (py_str : json -> string) (os : list tick_oracle)
    (s : system) :
  is_running (shared s) = true ->
  loop_thread s = Looping ->
  loop_frame (state_of (run py_str (map Tick os) s)) =
    state_of (while_running os (loop_frame s)) /\
  trace_of (run py_str (map Tick os) s) =
    trace_of (while_running os (loop_frame s)).
Proof.
  revert s. induction os as [| o os IH]; intros s Hrun Hth.
  - split; reflexivity.
  - simpl map.
    destruct (run_cons py_str (Tick o) (map Tick os) s) as (_ & -> & ->).
    destruct (while_running_cons o os (loop_frame s) Hrun) as (_ & -> & ->).
    rewrite step_tick, Hth, Hrun.
    destruct (in_loop_run (iteration o) s) as (_ & Hf & Ht & Htr).
    destruct (iteration_frame o (loop_frame s)) as (_ & Hr & _).
    destruct (IH (state_of (in_loop (iteration o) s))) as [IHs IHt].
    + unfold shared. rewrite Hf, Hr. exact Hrun.
    + rewrite Ht. exact Hth.
    + rewrite IHs, IHt, Htr, Hf. split; reflexivity.
Qed.

Lemma map_tick_no_quit (os : list tick_oracle) : ~ In Quit (map Tick os).
Proof.
  induction os as [| o os IH]; simpl; [tauto |].
  intros [H | H]; [discriminate | tauto].
Qed.

(** A tick of an exhausted loop that finds the tunnel down, and any
    menu command but "Exit", leave the loop exhausted. *)
Lemma exhausted_run (py_str : json -> string) (evs : list event)
    (s : system) :
  loop_thread s = Looping ->
  is_running (shared s) = true ->
  MAX_RETRIES <= retry_count (loop_frame s) ->
  Forall between evs ->
  let s' := state_of (run py_str evs s) in
  loop_thread s' = Looping /\
  is_running (shared s') = true /\
  retry_count (loop_frame s') = retry_count (loop_frame s).
Proof.
  revert s. induction evs as [| e evs IH]; intros s Hth Hrun Hn Hb.
  - repeat split; assumption.
  - cbv zeta. destruct (run_cons py_str e evs s) as (_ & -> & _).
    inversion Hb as [| ? ? He Hb']; subst.
    destruct (step_frame py_str e s) as (_ & _ & Hr & Ht & Hstep).
    assert (Hkeep : retry_count (loop_frame (state_of (step py_str e s)))
                    = retry_count (loop_frame s)).
    { destruct e as [o | | o | o | o |];
        try (destruct Hstep as [H | (o' & [=] & _)]; exact H).
      rewrite step_tick, Hth, Hrun.
      destruct (in_loop_run (iteration o) s) as (_ & -> & _).
      rewrite iteration_retry_count_exact. simpl in He. rewrite He.
      destruct (draw_fault _ o); [reflexivity |].
      destruct (Z.ltb_spec (retry_count (loop_frame s)) MAX_RETRIES);
        [lia | reflexivity]. }
    destruct (IH (state_of (step py_str e s))) as (I1 & I2 & I3).
    + destruct Ht as [-> | [_ Hf]]; congruence.
    + rewrite Hr; [assumption |]. intros ->. exact He.
    + rewrite Hkeep. exact Hn.
    + exact Hb'.
    + rewrite I3, Hkeep. repeat split; assumption.
Qed.

(** C5, as the code has it. Three ticks in a row that find the tunnel
    down and whose recovery fails take [retry_count] from 0 to 3, one
    restart command each.  From then on, through any ticks that find
    the tunnel down and any menu commands, successful manual restarts
    and manual checks that find a connection included, the counter
    stays at 3, and the next tick probes once and, if it again finds
    the tunnel down, issues no restart command and keeps the counter;
    only a tick whose own probe reports a connection puts it back
    to 0. *)
Theorem exhausted_until_tick_connected (py_str : json -> string)
    (s0 : system) (failing : list tick_oracle) (evs : list event)
    (o : tick_oracle) :
  loop_thread s0 = Looping ->
  is_running (shared s0) = true ->
  retry_count (loop_frame s0) = 0 ->
  List.length failing = 3%nat ->
  Forall fails failing ->
  icon (shared s0) = None \/ Forall draws failing ->
  Forall between evs ->
  let r3 := run py_str (map Tick failing) s0 in
  let s := state_of (run py_str evs (state_of r3)) in
  let r := step py_str (Tick o) s in
  retry_count (loop_frame (state_of r3)) = MAX_RETRIES /\
  spawns TunnelServiceRestart (trace_of r3) = 3%nat /\
  retry_count (loop_frame s) = MAX_RETRIES /\
  spawns TunnelStatus (trace_of r) = 1%nat /\
  (if probe_connected (probe o)
   then retry_count (loop_frame (state_of r)) = 0
   else retry_count (loop_frame (state_of r)) = MAX_RETRIES /\
        spawns TunnelServiceRestart (trace_of r) = 0%nat).
Proof.
  intros Hth Hrun H0 Hlen Hf Hd Hb. cbv zeta.
  destruct (run_ticks py_str failing s0 Hrun Hth) as [Hs3 Ht3].
  destruct (failing_ticks failing (loop_frame s0)) as (Hn3 & _ & Hc3);
    try assumption.
  { rewrite H0, Hlen. unfold MAX_RETRIES. simpl. lia. }
  rewrite H0, Hlen in Hn3. rewrite Hlen in Hc3.
  destruct (run_without_quit py_str (map Tick failing) s0 Hrun Hth
              (map_tick_no_quit failing)) as [Hrun3 Hth3].
  rewrite <- Hs3 in Hn3. rewrite <- Ht3 in Hc3.
  set (s3 := state_of (run py_str (map Tick failing) s0)) in *.
  destruct (exhausted_run py_str evs s3 Hth3 Hrun3) as (Hth' & Hrun' & Hn');
    [rewrite Hn3; unfold MAX_RETRIES; simpl; lia | exact Hb |].
  set (s := state_of (run py_str evs s3)) in *.
  assert (Hmax : retry_count (loop_frame s) = MAX_RETRIES).
  { rewrite Hn', Hn3. reflexivity. }
  split; [rewrite Hn3; reflexivity | split; [exact Hc3 | split; [exact Hmax |]]].
  rewrite step_tick, Hth', Hrun'.
  destruct (in_loop_run (iteration o) s) as (_ & -> & _ & ->).
  rewrite iteration_retry_count_exact, iteration_cases, Hmax.
  replace (MAX_RETRIES <? MAX_RETRIES) with false by reflexivity.
  destruct (check_tunnel_status_counts (probe o) (self (loop_frame s)))
    as (Hs & Hr & _).
  rewrite draw_fault_after_probe.
  destruct (probe_connected (probe o)), (draw_fault (self (loop_frame s)) o);
    project; rewrite !spawns_app, ?Hs, ?Hr; simpl; auto.
Qed.

Lemma exhausted_until_tick_connected_witness :
  let r3 := run (fun _ => "") (map Tick [bad_tick; bad_tick; bad_tick])
              (started unreachable) in
  let s := state_of (run (fun _ => "")
                       [Tick bad_tick; CheckNow healthy; Restart restart_works]
                       (state_of r3)) in
  retry_count (loop_frame (state_of r3)) = 3 /\
  retry_count (loop_frame s) = 3 /\
  spawns TunnelServiceRestart
    (trace_of (step (fun _ => "") (Tick bad_tick) s)) = 0%nat /\
  retry_count (loop_frame (state_of (step (fun _ => "") (Tick good_tick) s)))
    = 0.
Proof.
  assert (Hbad : fails bad_tick) by (split; reflexivity).
  assert (Hdraw : draws bad_tick) by reflexivity.
  assert (Hdown : between (Tick bad_tick)) by reflexivity.
  assert (Hfails : Forall fails [bad_tick; bad_tick; bad_tick])
    by (repeat constructor; exact Hbad).
  assert (Hdraws : Forall draws [bad_tick; bad_tick; bad_tick])
    by (repeat constructor).
  assert (Hbetween : Forall between
                       [Tick bad_tick; CheckNow healthy;
                        Restart restart_works])
    by (repeat constructor).
  pose proof (exhausted_until_tick_connected (fun _ => "")
                (started unreachable) [bad_tick; bad_tick; bad_tick]
                [Tick bad_tick; CheckNow healthy; Restart restart_works]
                bad_tick eq_refl eq_refl eq_refl eq_refl
                Hfails (or_intror Hdraws) Hbetween)
    as (H3 & _ & Hn & _ & Hdown').
  pose proof (exhausted_until_tick_connected (fun _ => "")
                (started unreachable) [bad_tick; bad_tick; bad_tick]
                [Tick bad_tick; CheckNow healthy; Restart restart_works]
                good_tick eq_refl eq_refl eq_refl eq_refl
                Hfails (or_intror Hdraws) Hbetween)
    as (_ & _ & _ & _ & Hup).
  cbv zeta.
  split; [exact H3 | split; [exact Hn | split]].
  - exact (proj2 Hdown').
  - exact Hup.
Defined.

(** C5, as stated, fails: with the counter at 3 a manual restart
    succeeds, says so and sets the shared flag; the next tick again
    finds the tunnel down, and it still issues no restart command and
    leaves the counter at 3. *)
Lemma exhausted_counterexample :
  let s3 := state_of (run (fun _ => "")
                        [Tick bad_tick; Tick bad_tick; Tick bad_tick]
                        (started unreachable)) in
  let manual := step (fun _ => "") (Restart restart_works) s3 in
  let next := step (fun _ => "") (Tick bad_tick) (state_of manual) in
  retry_count (loop_frame s3) = 3 /\
  restart_succeeds restart_works = true /\
  In (Notify "Tunnel restarted successfully") (trace_of manual) /\
  tunnel_connected (shared (state_of manual)) = true /\
  probe_connected (probe bad_tick) = false /\
  spawns TunnelServiceRestart (trace_of next) = 0%nat /\
  retry_count (loop_frame (state_of next)) = 3.
Proof.
  cbv zeta. repeat split; try reflexivity. vm_compute. tauto.
Qed.

(** C2, as stated, fails: after three failed automatic recoveries the
    counter is 3; a manual restart then succeeds, says so and sets the
    shared flag, and the counter is still 3. *)
Lemma manual_restart_counterexample :
  let s := state_of (run (fun _ => "")
                       [Tick bad_tick; Tick bad_tick; Tick bad_tick]
                       (started unreachable)) in
  let r := step (fun _ => "") (Restart restart_works) s in
  retry_count (loop_frame s) = 3 /\
  In (Notify "Tunnel restarted successfully") (trace_of r) /\
  tunnel_connected (shared (state_of r)) = true /\
  retry_count (loop_frame (state_of r)) = 3 /\
  retry_count (loop_frame (state_of r)) <> 0.
Proof.
  cbv zeta. split; [reflexivity | split; [| split; [reflexivity |]]].
  - vm_compute. tauto.
  - split; [reflexivity | vm_compute; discriminate].
Qed.

(** The counter comes back to 0 at the next tick that finds the tunnel
    up. *)
Example manual_restart_then_tick :
  retry_count
    (loop_frame
       (state_of
          (run (fun _ => "")
             [Tick bad_tick; Tick bad_tick; Tick bad_tick;
              Restart restart_works; Tick good_tick]
             (started unreachable)))) = 0.
Proof. reflexivity. Qed.

(** A fault of the icon backend inside a tick is logged and slept over;
    the thread keeps looping and the next tick probes again. *)
Example icon_fault_tick :
  let boom := {| probe := healthy;
                 icon_fault := Some (OtherException "backend gone");
                 recovery := restart_works |} in
  let r := run (fun _ => "") [Tick boom; Tick good_tick] (started healthy) in
  loop_thread (state_of r) = Looping /\
  trace_of r =
    [Run TunnelStatus (Some 10);
     Log INFO (TunnelIsConnected (JStr "dev-box"));
     UpdateIcon green;
     Log ERROR (ErrorInLoop (OtherException "backend gone"));
     Sleep 30;
     Run TunnelStatus (Some 10);
     Log INFO (TunnelIsConnected (JStr "dev-box"));
     UpdateIcon green;
     Sleep 30].
Proof. split; reflexivity. Qed.

(** After a quit request the next test of the [while] ends the thread. *)
Example quit_stops_loop :
  let r := run (fun _ => "") [Tick good_tick; Quit; Tick good_tick]
             (started healthy) in
  loop_thread (state_of r) = Finished /\
  spawns TunnelStatus (trace_of r) = 1%nat.
Proof. split; reflexivity. Qed.

(** * Further properties of the code *)

(** ** The probe, composed with itself and with the status text *)

(** The effects of a probe depend on the answers from outside only. *)
Lemma check_tunnel_status_trace_any (o : probe_oracle) (m m' : monitor) :
  trace_of (check_tunnel_status o m) = trace_of (check_tunnel_status o m').
Proof.
  destruct o as [[[rc out err] | e] t]; run_probe.
  - destruct (rc =? 0); [| reflexivity].
    destruct out as [msg | v]; simpl; [reflexivity |].
    destruct v as [| | | | | top]; simpl; try reflexivity.
    destruct (lookup "tunnel" top) as [[| | | | | nested] |]; simpl;
      try reflexivity.
    + destruct (lookup "tunnel" nested) as [s |]; simpl;
        [destruct (equals_str s "Connected") |];
        destruct (lookup "name" nested); reflexivity.
  - destruct e; reflexivity.
Qed.

(** X1. A probe is idempotent: made again with the same answers from
    outside, it returns the same value, leaves the same object and
    performs the same effects. *)
Theorem probe_idempotent (o : probe_oracle) (m : monitor) :
  let r := check_tunnel_status o m in
  check_tunnel_status o (state_of r) = r.
Proof.
  cbv zeta.
  pose proof (check_tunnel_status_trace_any o
                (state_of (check_tunnel_status o m)) m) as Ht.
  pose proof (check_tunnel_status_cases o m) as Hm.
  pose proof (check_tunnel_status_cases o
                (state_of (check_tunnel_status o m))) as Hm'.
  destruct (failure_kind (status_run o)).
  - destruct Hm as [msg Hm], Hm' as [msg' Hm'].
    rewrite Hm' in Ht |- *. rewrite Hm in Ht |- *.
    rewrite !trace_of_run in Ht. rewrite Ht. reflexivity.
  - destruct Hm as (v & i & e & Hr & Ho & Hm).
    destruct Hm' as (v' & i' & e' & Hr' & Ho' & Hm').
    rewrite Hr in Hr'. injection Hr' as <- <-.
    rewrite Ho in Ho'. injection Ho' as <-.
    cbv zeta in Hm, Hm'. rewrite Hm'. rewrite Hm. reflexivity.
Qed.

(** X2. The last probe wins: a probe that does not fail leaves the
    object it would have left without the probe before it; a probe that
    fails only clears the flag and keeps the name and the time the
    earlier probe stored. *)
Theorem last_probe_wins (o1 o2 : probe_oracle) (m : monitor) :
  let m1 := state_of (check_tunnel_status o1 m) in
  match failure_kind (status_run o2) with
  | None =>
      state_of (check_tunnel_status o2 m1) =
      state_of (check_tunnel_status o2 m)
  | Some _ =>
      state_of (check_tunnel_status o2 m1) = set_tunnel_connected false m1
  end.
Proof.
  cbv zeta.
  pose proof (check_tunnel_status_cases o2 m) as Hm.
  pose proof (check_tunnel_status_cases o2
                (state_of (check_tunnel_status o1 m))) as Hm'.
  destruct (check_tunnel_status_frame o1 m) as [Hrun Hicon].
  destruct (failure_kind (status_run o2)).
  - destruct Hm' as [msg ->]. reflexivity.
  - destruct Hm as (v & i & e & Hr & Ho & Hm).
    destruct Hm' as (v' & i' & e' & Hr' & Ho' & Hm').
    rewrite Hr in Hr'. injection Hr' as <- <-.
    rewrite Ho in Ho'. injection Ho' as <-.
    cbv zeta in Hm, Hm'. rewrite Hm', Hm. project.
    unfold set_last_check_time, set_tunnel_name, set_tunnel_connected.
    simpl. rewrite Hrun, Hicon. reflexivity.
Qed.

(** X3. A probe spawns the status command once, with the time-out of
    10, and then writes one record: an error on a failure, an info when
    connected, a warning when the status was read but is not connected.
    It never sleeps and touches neither the running flag nor the
    icon. *)
Theorem probe_effects (o : probe_oracle) (m : monitor) :
  let r := check_tunnel_status o m in
  (exists msg,
     trace_of r =
     [Run TunnelStatus (Some 10);
      Log match failure_kind (status_run o) with
          | Some _ => ERROR
          | None => if probe_connected o then INFO else WARNING
          end msg]) /\
  total_sleep (trace_of r) = 0 /\
  is_running (state_of r) = is_running m /\
  icon (state_of r) = icon m.
Proof.
  cbv zeta.
  pose proof (check_tunnel_status_value o m) as Hv.
  pose proof (check_tunnel_status_cases o m) as Hm.
  destruct (check_tunnel_status_frame o m) as [Hrun Hicon].
  destruct (check_tunnel_status_counts o m) as (_ & _ & Hsleep).
  split; [| split; [exact Hsleep | split; assumption]].
  destruct (failure_kind (status_run o)).
  - destruct Hm as [msg ->]. exists msg. reflexivity.
  - destruct Hm as (v & i & e & _ & _ & Hm). cbv zeta in Hm.
    rewrite Hm in Hv |- *. rewrite value_of_run in Hv.
    injection Hv as Hv. rewrite <- Hv. project.
    destruct (match lookup "tunnel" i with
              | Some s => equals_str s "Connected"
              | None => false
              end); eexists; reflexivity.
Qed.

(** X4. The status text right after a probe.  After a failed probe it
    is the disconnected mark followed by the time of the earlier
    success, if any, and never the tunnel name; after a probe that read
    the status it ends with the time of that probe, and names the
    tunnel only when connected. *)
Theorem status_text_after_probe (py_str : json -> string)
    (o : probe_oracle) (m : monitor) :
  let m' := state_of (check_tunnel_status o m) in
  get_status_text py_str m' =
  match failure_kind (status_run o) with
  | Some _ =>
      ((ballot_x ++ " Disconnected") ++
       last_check_line (last_check_time m))%string
  | None =>
      ((if probe_connected o
        then check_mark ++ " Connected" ++ newline ++ "Tunnel: " ++
             format py_str (tunnel_name m')
        else ballot_x ++ " Disconnected") ++
       newline ++ "Last check: " ++ strftime_HMS (now o))%string
  end.
Proof.
  cbv zeta.
  pose proof (check_tunnel_status_flag o m) as Hflag.
  pose proof (check_tunnel_status_time o m) as Htime.
  pose proof (check_tunnel_status_cases o m) as Hm.
  unfold get_status_text. rewrite Hflag, Htime.
  destruct (failure_kind (status_run o)).
  - destruct Hm as [msg Hm]. rewrite Hm in Hflag.
    rewrite state_of_run in Hflag. simpl in Hflag. rewrite <- Hflag.
    reflexivity.
  - reflexivity.
Qed.

(** ** The effects of one iteration *)

Lemma redraws_app (t u : trace) :
  redraws (t ++ u) = (redraws t + redraws u)%nat.
Proof.
  induction t as [| [] t IH]; simpl; try assumption; [reflexivity |].
  rewrite IH. reflexivity.
Qed.

Lemma check_tunnel_status_redraws (o : probe_oracle) (m : monitor) :
  redraws (trace_of (check_tunnel_status o m)) = 0%nat.
Proof.
  destruct (check_tunnel_status_trace o m) as (l & msg & ->). reflexivity.
Qed.

(** A recovery probes only when its command was accepted, and never
    redraws. *)
Lemma restart_tunnel_probes (o : restart_oracle) (m : monitor) :
  spawns TunnelStatus (trace_of (restart_tunnel o m)) =
    (if command_failed (restart_run o) then 0 else 1)%nat /\
  redraws (trace_of (restart_tunnel o m)) = 0%nat.
Proof.
  pose proof (restart_tunnel_cases o m) as Hm.
  destruct (command_failed (restart_run o)).
  - destruct Hm as [msg ->]. split; reflexivity.
  - rewrite Hm. project.
    destruct (check_tunnel_status_trace (confirm o) m) as (l & msg & ->).
    split; reflexivity.
Qed.

Ltac count_trace :=
  repeat (rewrite ?total_sleep_app, ?spawns_app, ?redraws_app; simpl).

(** Sleep, commands and redraws of an iteration, branch by branch. *)
Lemma iteration_effects (o : tick_oracle) (f : frame) :
  let t := trace_of (iteration o f) in
  let refused := command_failed (restart_run (recovery o)) in
  total_sleep t =
    CHECK_INTERVAL +
    (if attempts_recovery o f then
       (if refused then 0 else SETTLE_DELAY) +
       (if restart_succeeds (recovery o) then 0 else RETRY_DELAY)
     else
       match draw_fault (self f) o with
       | Some _ => 0
       | None => if probe_connected (probe o) then 0 else CHECK_INTERVAL
       end) /\
  spawns TunnelServiceRestart t =
    (if attempts_recovery o f then 1 else 0)%nat /\
  spawns TunnelStatus t =
    (if attempts_recovery o f && negb refused then 2 else 1)%nat /\
  redraws t = 1%nat.
Proof.
  cbv zeta. rewrite iteration_cases. unfold attempts_recovery.
  rewrite draw_fault_after_probe.
  destruct (check_tunnel_status_counts (probe o) (self f))
    as (Hs & Hr & Hz).
  pose proof (check_tunnel_status_redraws (probe o) (self f)) as Hd.
  destruct (probe_connected (probe o)), (draw_fault (self f) o); simpl;
    try (project; count_trace; rewrite ?Hs, ?Hr, ?Hz, ?Hd;
         repeat split; reflexivity).
  destruct (retry_count f <? MAX_RETRIES); simpl;
    [| project; count_trace; rewrite ?Hs, ?Hr, ?Hz, ?Hd;
       repeat split; reflexivity].
  match goal with
  | |- context [restart_tunnel ?a ?b] =>
      destruct (restart_tunnel_counts a b) as [Hrr Hrz];
      destruct (restart_tunnel_probes a b) as [Hrs Hrd]
  end.
  cbv zeta in Hrr, Hrz.
  destruct (restart_succeeds (recovery o)); project; count_trace;
    rewrite ?Hs, ?Hr, ?Hz, ?Hd, ?Hrr, ?Hrz, ?Hrs, ?Hrd;
    destruct (command_failed (restart_run (recovery o))); simpl;
    repeat split; reflexivity.
Qed.


(** X5. How long an iteration sleeps before the next probe: one
    [CHECK_INTERVAL] when the probe reports a connection or drawing the
    icon raises; with a recovery attempt, the settle delay if the
    restart command was accepted, plus [RETRY_DELAY] if the recovery
    failed, plus one interval; two intervals when the retries are
    exhausted.  It is never less than 30 and never more than 60. *)
Theorem iteration_sleep (o : tick_oracle) (f : frame) :
  let t := total_sleep (trace_of (iteration o f)) in
  t =
    CHECK_INTERVAL +
    (if attempts_recovery o f then
       (if command_failed (restart_run (recovery o)) then 0
        else SETTLE_DELAY) +
       (if restart_succeeds (recovery o) then 0 else RETRY_DELAY)
     else
       match draw_fault (self f) o with
       | Some _ => 0
       | None => if probe_connected (probe o) then 0 else CHECK_INTERVAL
       end) /\
  30 <= t <= 60.
Proof.
  cbv zeta. destruct (iteration_effects o f) as (-> & _).
  split; [reflexivity |].
  unfold CHECK_INTERVAL, SETTLE_DELAY, RETRY_DELAY.
  destruct (attempts_recovery o f),
    (command_failed (restart_run (recovery o))),
    (restart_succeeds (recovery o)), (draw_fault (self f) o),
    (probe_connected (probe o)); lia.
Qed.

(** X6. Every iteration calls [update_icon] exactly once and probes at
    least once; it issues the restart command, once, exactly when the
    probe found the tunnel down, the icon was drawn and the counter is
    below the limit, and it probes a second time exactly when that
    command was accepted. *)
Theorem iteration_commands (o : tick_oracle) (f : frame) :
  let t := trace_of (iteration o f) in
  redraws t = 1%nat /\
  spawns TunnelServiceRestart t =
    (if attempts_recovery o f then 1 else 0)%nat /\
  spawns TunnelStatus t =
    (if attempts_recovery o f &&
        negb (command_failed (restart_run (recovery o)))
     then 2 else 1)%nat.
Proof.
  cbv zeta. destruct (iteration_effects o f) as (_ & Hr & Hs & Hd).
  auto.
Qed.

(** X7. Up to the limit every failed recovery counts: after [N <= 3]
    iterations in a row that find the tunnel down and fail to recover
    it, starting from 0, [retry_count] is [N] and [N] restart commands
    were issued. *)
Theorem consecutive_failures_count (os : list tick_oracle) (m : monitor) :
  is_running m = true ->
  Forall fails os ->
  icon m = None \/ Forall draws os ->
  (List.length os <= 3)%nat ->
  let r := while_running os (Frame m 0) in
  retry_count (state_of r) = Z.of_nat (List.length os) /\
  spawns TunnelServiceRestart (trace_of r) = List.length os.
Proof.
  intros Hrun Hf Hd Hn.
  destruct (failing_ticks os (Frame m 0)) as (H1 & _ & H2); try assumption.
  - simpl. unfold MAX_RETRIES. lia.
  - split; [exact H1 | exact H2].
Qed.

Lemma consecutive_failures_count_witness :
  retry_count (state_of (while_running [bad_tick; bad_tick]
                           (Frame dev_box 0))) = 2.
Proof.
  assert (Hbad : fails bad_tick) by (split; reflexivity).
  assert (Hdraw : draws bad_tick) by reflexivity.
  apply (consecutive_failures_count [bad_tick; bad_tick] dev_box eq_refl
           (Forall_cons _ Hbad (Forall_cons _ Hbad (Forall_nil _)))
           (or_intror (Forall_cons _ Hdraw
              (Forall_cons _ Hdraw (Forall_nil _))))).
  simpl. lia.
Defined.

(** What a recovery leaves in the shared flag. *)
Lemma restart_tunnel_stored_flag (o : restart_oracle) (m : monitor) :
  tunnel_connected m = false ->
  tunnel_connected (state_of (restart_tunnel o m)) = restart_succeeds o.
Proof.
  intros Hm0.
  pose proof (restart_tunnel_value o m) as Hv.
  pose proof (restart_tunnel_cases o m) as Hm.
  destruct (command_failed (restart_run o)).
  - destruct Hm as [msg Hm]. rewrite Hm in Hv |- *.
    rewrite value_of_run in Hv. injection Hv as <-. project. exact Hm0.
  - rewrite Hm in Hv |- *. project. rewrite value_of_run in Hv.
    rewrite check_tunnel_status_value in Hv. injection Hv as <-.
    apply check_tunnel_status_flag.
Qed.

(** X8. The icon shows what the probe of the iteration saw, not what
    the recovery achieved.  When drawing does not fault, after the
    iteration an existing icon is green if the probe reported a
    connection and red otherwise, while the shared flag is set also
    when the probe failed and the recovery, attempted below the limit,
    succeeded: the icon then stays red until a later iteration. *)
Theorem icon_shows_probe (o : tick_oracle) (f : frame) (c : color) :
  icon (self f) = Some c ->
  icon_fault o = None ->
  let f' := state_of (iteration o f) in
  icon (self f') = Some (if probe_connected (probe o) then green else red) /\
  tunnel_connected (self f') =
    probe_connected (probe o) ||
    ((retry_count f <? MAX_RETRIES) && restart_succeeds (recovery o)).
Proof.
  intros Hi Hf. cbv zeta. rewrite iteration_cases.
  rewrite draw_fault_after_probe.
  unfold draw_fault. rewrite Hi, Hf.
  pose proof (check_tunnel_status_flag (probe o) (self f)) as Hflag.
  destruct (check_tunnel_status_frame (probe o) (self f)) as [_ Hicon].
  rewrite Hi in Hicon.
  set (m1 := state_of (check_tunnel_status (probe o) (self f))) in *.
  assert (Hred : icon (redrawn red m1) = Some red /\
                 tunnel_connected (redrawn red m1) = tunnel_connected m1).
  { unfold redrawn. rewrite Hicon. split; reflexivity. }
  destruct Hred as [Hri Hrc].
  destruct (probe_connected (probe o)); simpl.
  - project. unfold redrawn. rewrite Hicon. simpl. auto.
  - destruct (retry_count f <? MAX_RETRIES); simpl.
    + destruct (restart_tunnel_frame (recovery o) (redrawn red m1))
        as [_ Hic].
      pose proof (restart_tunnel_stored_flag (recovery o) (redrawn red m1))
        as Hst.
      rewrite Hrc in Hst. specialize (Hst Hflag).
      destruct (restart_succeeds (recovery o)); project; simpl;
        rewrite Hic, Hri, Hst; auto.
    + project. simpl. rewrite Hri, Hrc. auto.
Qed.

Lemma icon_shows_probe_witness :
  let f' := state_of (iteration recovering_tick (Frame dev_box 1)) in
  icon (self f') = Some red /\ tunnel_connected (self f') = true.
Proof.
  exact (icon_shows_probe recovering_tick (Frame dev_box 1) green
           eq_refl eq_refl).
Defined.

(** ** Successive iterations *)

Ltac count_sequence :=
  rewrite ?total_sleep_app, ?spawns_app, ?redraws_app;
  simpl List.length; rewrite ?Nat2Z.inj_succ.

(** X9. A broken icon backend silences the recovery.  While an icon
    exists and drawing it raises, iterations that find the tunnel down
    issue no restart command at all, whatever the counter, and leave
    the counter where it was; each calls [update_icon] once and sleeps
    one [CHECK_INTERVAL]. *)
Theorem icon_fault_blocks_recovery (os : list tick_oracle) (f : frame) :
  is_running (self f) = true ->
  icon (self f) <> None ->
  Forall faults os ->
  Forall disconnected os ->
  let r := while_running os f in
  spawns TunnelServiceRestart (trace_of r) = 0%nat /\
  retry_count (state_of r) = retry_count f /\
  redraws (trace_of r) = List.length os /\
  total_sleep (trace_of r) = CHECK_INTERVAL * Z.of_nat (List.length os).
Proof.
  revert f. induction os as [| o os IH]; intros f Hrun Hicon Hf Hd.
  - cbv zeta. simpl. project. repeat split.
  - cbv zeta.
    destruct (while_running_cons o os f Hrun) as (_ & -> & ->).
    inversion Hf as [| ? ? Hfo Hf']; subst.
    inversion Hd as [| ? ? Hdo Hd']; subst.
    destruct (iteration_frame o f) as (_ & Hrun1 & Hicon1).
    assert (Hdraw : exists e, draw_fault (self f) o = Some e).
    { unfold draw_fault, faults in *.
      destruct (icon (self f)); [| contradiction Hicon; reflexivity].
      destruct (icon_fault o) as [e |]; [eauto | contradiction Hfo].
      reflexivity. }
    destruct Hdraw as [e Hdraw].
    destruct (iteration_effects o f) as (Hsl & Hre & _ & Hrd).
    unfold attempts_recovery in Hsl, Hre. rewrite Hdraw in Hsl, Hre.
    rewrite Bool.andb_false_r in Hsl, Hre. simpl in Hsl, Hre.
    assert (Hn : retry_count (state_of (iteration o f)) = retry_count f).
    { rewrite iteration_cases, draw_fault_after_probe, Hdraw.
      unfold disconnected in Hdo. rewrite Hdo. reflexivity. }
    destruct (IH (state_of (iteration o f))) as (IH1 & IH2 & IH3 & IH4);
      try assumption.
    + congruence.
    + tauto.
    + count_sequence. rewrite Hre, Hrd, Hsl, IH1, IH2, IH3, IH4, Hn.
      repeat split; lia.
Qed.

Lemma icon_fault_blocks_recovery_witness :
  let r := while_running [faulty_tick; faulty_tick] (Frame dev_box 0) in
  spawns TunnelServiceRestart (trace_of r) = 0%nat /\
  retry_count (state_of r) = 0.
Proof.
  assert (Hf : faults faulty_tick) by discriminate.
  assert (Hd : disconnected faulty_tick) by reflexivity.
  pose proof (icon_fault_blocks_recovery [faulty_tick; faulty_tick]
                (Frame dev_box 0) eq_refl
                ltac:(discriminate)
                (Forall_cons _ Hf (Forall_cons _ Hf (Forall_nil _)))
                (Forall_cons _ Hd (Forall_cons _ Hd (Forall_nil _))))
    as (H1 & H2 & _).
  split; [exact H1 | exact H2].
Defined.

(** X10. Connected observations are idempotent.  Over any number of
    iterations whose probes all report a connection, whether or not
    drawing faults, the loop issues no restart command, probes once
    and calls [update_icon] once per iteration and sleeps exactly one
    [CHECK_INTERVAL] each time; after the first of them the counter is
    0 and the shared flag is set. *)
Theorem connected_ticks_idempotent (os : list tick_oracle) (f : frame) :
  is_running (self f) = true ->
  Forall connected os ->
  let r := while_running os f in
  spawns TunnelServiceRestart (trace_of r) = 0%nat /\
  spawns TunnelStatus (trace_of r) = List.length os /\
  redraws (trace_of r) = List.length os /\
  total_sleep (trace_of r) = CHECK_INTERVAL * Z.of_nat (List.length os) /\
  (os <> [] ->
   retry_count (state_of r) = 0 /\
   tunnel_connected (self (state_of r)) = true).
Proof.
  revert f. induction os as [| o os IH]; intros f Hrun Hc.
  - cbv zeta. simpl. project. repeat split; contradiction.
  - cbv zeta.
    destruct (while_running_cons o os f Hrun) as (_ & -> & ->).
    inversion Hc as [| ? ? Hco Hc']; subst. unfold connected in Hco.
    destruct (iteration_frame o f) as (_ & Hrun1 & _).
    destruct (iteration_effects o f) as (Hsl & Hre & Hst & Hrd).
    unfold attempts_recovery in Hsl, Hre, Hst. rewrite Hco in Hsl, Hre, Hst.
    simpl in Hsl, Hre, Hst.
    assert (Hsl' : total_sleep (trace_of (iteration o f)) = CHECK_INTERVAL).
    { rewrite Hsl. destruct (draw_fault (self f) o); lia. }
    assert (Hone : retry_count (state_of (iteration o f)) = 0 /\
                   tunnel_connected (self (state_of (iteration o f))) = true).
    { rewrite iteration_cases, Hco, draw_fault_after_probe.
      pose proof (check_tunnel_status_flag (probe o) (self f)) as Hflag.
      rewrite Hco in Hflag.
      destruct (redrawn_frame green
                  (state_of (check_tunnel_status (probe o) (self f))))
        as (_ & Hg & _).
      destruct (draw_fault (self f) o); project; simpl; rewrite ?Hg; auto. }
    destruct (IH (state_of (iteration o f))) as (IH1 & IH2 & IH3 & IH4 & IH5);
      [congruence | assumption |].
    count_sequence. rewrite Hre, Hst, Hrd, Hsl', IH1, IH2, IH3, IH4.
    repeat split; try lia.
    + destruct os as [| o' os']; [exact (proj1 Hone) |].
      apply IH5. discriminate.
    + destruct os as [| o' os']; [exact (proj2 Hone) |].
      apply IH5. discriminate.
Qed.

Lemma connected_ticks_idempotent_witness :
  let r := while_running [good_tick; good_tick; good_tick]
             (Frame dev_box 2) in
  spawns TunnelServiceRestart (trace_of r) = 0%nat /\
  total_sleep (trace_of r) = 90 /\
  retry_count (state_of r) = 0.
Proof.
  assert (Hc : connected good_tick) by reflexivity.
  pose proof (connected_ticks_idempotent [good_tick; good_tick; good_tick]
                (Frame dev_box 2) eq_refl
                (Forall_cons _ Hc (Forall_cons _ Hc
                   (Forall_cons _ Hc (Forall_nil _)))))
    as (H1 & _ & _ & H4 & H5).
  split; [exact H1 | split; [exact H4 |]].
  apply H5. discriminate.
Defined.



(** ** Quitting *)





(** ** The menu commands *)

Section Commands.

Variable py_str : json -> string.

Lemma on_check_now_run (o : probe_oracle) (m : monitor) :
  on_check_now o m =
  (Ret tt, state_of (check_tunnel_status o m),
   Notify "Checking tunnel status..." :: trace_of (check_tunnel_status o m)).
Proof.
  unfold on_check_now, bind, emit, ret. simpl.
  pose proof (check_tunnel_status_value o m) as Hv.
  unfold value_of, state_of, trace_of in *.
  destruct (check_tunnel_status o m) as [[v m1] t1]. simpl in *. subst v.
  rewrite app_nil_r. reflexivity.
Qed.

Lemma restart_tunnel_redraws (o : restart_oracle) (m : monitor) :
  redraws (trace_of (restart_tunnel o m)) = 0%nat.
Proof. apply restart_tunnel_probes. Qed.

(** X13. The menu never redraws the icon and never touches the retry
    counter.  For every command other than a tick of the loop thread:
    no [update_icon] call, the icon as it was, [retry_count] and the
    loop thread as they were; a manual check nevertheless stores what
    it saw in the shared flag, which can then disagree with the icon
    until the next iteration. *)
Theorem menu_never_redraws (e : event) (s : system) :
  (forall o, e <> Tick o) ->
  let r := step py_str e s in
  redraws (trace_of r) = 0%nat /\
  icon (shared (state_of r)) = icon (shared s) /\
  retry_count (loop_frame (state_of r)) = retry_count (loop_frame s) /\
  loop_thread (state_of r) = loop_thread s /\
  (forall o, e = CheckNow o ->
             tunnel_connected (shared (state_of r)) = probe_connected o).
Proof.
  intros Hne. cbv zeta.
  destruct e as [o | | o | o | o |]; [contradiction (Hne o); reflexivity | ..].
  all: match goal with
       | |- context [step py_str ?e ?x] =>
           pose proof (handlers_frame py_str e (shared x)) as (_ & Hi & _);
           change (step py_str e x) with
             (in_menu match e with
                      | Tick _ => ret tt
                      | Clicked => on_clicked py_str
                      | CheckNow o => on_check_now o
                      | Restart o => on_restart o
                      | ViewLogs o => on_view_logs o
                      | Quit => on_quit
                      end x)
       end;
    match goal with
    | |- context [in_menu ?c ?x] =>
        destruct (in_menu_run c x) as (_ & -> & -> & -> & ->)
    end;
    cbv zeta in Hi; rewrite Hi.
  - repeat split. intros ? [=].
  - rewrite on_check_now_run. project. simpl.
    rewrite check_tunnel_status_redraws.
    repeat split. intros o' [= <-]. apply check_tunnel_status_flag.
  - rewrite on_restart_run. project. simpl.
    rewrite redraws_app, restart_tunnel_redraws.
    repeat split. intros ? [=].
  - unfold on_view_logs, try_except, bind, subprocess_run, emit, ret, raise,
      logging. simpl.
    destruct o; repeat split; intros ? [=].
  - repeat split. intros ? [=].
Qed.

(** "Status" and "View Logs" leave the whole program state as it was;
    "View Logs" ignores the exit code of notepad and turns an exception
    of the launch into one error record. *)
Lemma read_only_step (s : system) (o : run_outcome) :
  step py_str Clicked s =
    (Ret tt, s, [Notify (get_status_text py_str (shared s))]) /\
  step py_str (ViewLogs o) s =
    (Ret tt, s,
     Run Notepad None ::
     match o with
     | Returns _ => []
     | Throws e => [Log ERROR (FailedToOpenLog e)]
     end).
Proof.
  destruct s as [[m n] th]. split.
  - reflexivity.
  - destruct o; reflexivity.
Qed.

(** X14. "Status" and "View Logs" are invisible to the state machine:
    struck out of any run, wherever they occur and whatever notepad
    does (any exit code, or an exception of the launch), they leave the
    final state of the program, and with it every later probe, restart
    and sleep, exactly as it was. *)
Theorem read_only_commands_unobservable (evs : list event) (s : system) :
  let kept := filter (fun e => negb (read_only e)) evs in
  state_of (run py_str kept s) = state_of (run py_str evs s) /\
  total_sleep (trace_of (run py_str kept s)) =
    total_sleep (trace_of (run py_str evs s)) /\
  spawns TunnelStatus (trace_of (run py_str kept s)) =
    spawns TunnelStatus (trace_of (run py_str evs s)) /\
  spawns TunnelServiceRestart (trace_of (run py_str kept s)) =
    spawns TunnelServiceRestart (trace_of (run py_str evs s)).
Proof.
  cbv zeta. revert s. induction evs as [| e evs IH]; intros s.
  - repeat split.
  - destruct (run_cons py_str e evs s) as (_ & Hs & Ht).
    rewrite Hs, Ht, total_sleep_app, !spawns_app.
    destruct (read_only e) eqn:Hro; simpl filter; rewrite Hro; simpl negb;
      cbv iota.
    + destruct (read_only_step s (Returns (CompletedProcess 0 (NotJSON "") "")))
        as [Hclick _].
      destruct e as [| | | | o |]; try discriminate Hro.
      * rewrite Hclick. project. simpl. apply IH.
      * destruct (read_only_step s o) as [_ ->]. project.
        destruct (IH s) as (I1 & I2 & I3 & I4).
        destruct o; simpl; auto.
    + destruct (run_cons py_str e (filter (fun e => negb (read_only e)) evs) s)
        as (_ & Hs' & Ht').
      rewrite Hs', Ht', total_sleep_app, !spawns_app.
      destruct (IH (state_of (step py_str e s))) as (I1 & I2 & I3 & I4).
      rewrite I1, I2, I3, I4. repeat split.
Qed.

(** X15. What a manual restart reports and stores.  The spawned thread
    notifies "restarting", runs the recovery and then notifies success
    exactly when the recovery returned [True].  If the restart command
    was accepted the shared flag afterwards is what was reported; if it
    was refused the shared object is left as it was, so the failure
    notification does not clear the flag. *)
Theorem manual_restart_reports (s : system) (o : restart_oracle) :
  let r := step py_str (Restart o) s in
  trace_of r =
    Notify "Restarting tunnel..." ::
    trace_of (restart_tunnel o (shared s)) ++
    [Notify (if restart_succeeds o then "Tunnel restarted successfully"
             else "Failed to restart tunnel")] /\
  (if command_failed (restart_run o)
   then restart_succeeds o = false /\ shared (state_of r) = shared s
   else tunnel_connected (shared (state_of r)) = restart_succeeds o).
Proof.
  cbv zeta.
  change (step py_str (Restart o) s) with (in_menu (on_restart o) s).
  destruct (in_menu_run (on_restart o) s) as (_ & -> & _ & _ & ->).
  rewrite on_restart_run. project. split; [reflexivity |].
  pose proof (restart_tunnel_value o (shared s)) as Hv.
  pose proof (restart_tunnel_cases o (shared s)) as Hm.
  destruct (command_failed (restart_run o)).
  - destruct Hm as [msg Hm]. rewrite Hm in Hv |- *.
    rewrite value_of_run in Hv. injection Hv as <-. split; reflexivity.
  - rewrite Hm in Hv |- *. project. rewrite value_of_run in Hv.
    rewrite check_tunnel_status_value in Hv. injection Hv as <-.
    apply check_tunnel_status_flag.
Qed.

End Commands.

Lemma menu_never_redraws_witness :
  let s := started unreachable in
  let r := step (fun _ => "") (CheckNow healthy) s in
  redraws (trace_of r) = 0%nat /\
  icon (shared (state_of r)) = Some red /\
  tunnel_connected (shared (state_of r)) = true.
Proof.
  assert (Hne : forall o, CheckNow healthy <> Tick o) by discriminate.
  pose proof (menu_never_redraws (fun _ => "") (CheckNow healthy)
                (started unreachable) Hne) as (H1 & H2 & _ & _ & H5).
  split; [exact H1 | split; [exact H2 |]].
  apply (H5 healthy). reflexivity.
Defined.
